(** * The AFFiNE chat-completions proxy (proxy.py)

    A shallow embedding of [handle_chat_completions] and of the generator
    [proxy_stream] it returns, followed by the properties of the request
    rewrite, of the outbound headers and of the relayed stream.

    The handler works on whatever [request.json()] returns, so the body is
    an arbitrary parsed JSON value and every subscript, membership test and
    [+] of the source is modelled with the exception Python raises when the
    operand has the wrong shape. *)

From Stdlib Require Import ZArith String Ascii List.
From Stdlib Require Import Floats.SpecFloat.
From stdpp Require Import gmap strings list fin_maps.

Set Warnings "-register-all".
Local Open Scope string_scope.

(** ** Python values and the operations the handler performs on them *)

Module Py.

(** The exceptions the handler can raise before it returns a response. *)
Inductive exn : Type :=
| JSONDecodeError
| KeyError
| IndexError
| TypeError.

Inductive result (A : Type) : Type :=
| Ok (a : A)
| Raise (e : exn).
Arguments Ok {A} a.
Arguments Raise {A} e.

Definition bind {A B : Type} (r : result A) (k : A -> result B) : result B :=
  match r with
  | Ok a => k a
  | Raise e => Raise e
  end.

(** What [json.loads] builds: None, bool, int, float, str, list, and dict
    with str keys. *)
Inductive value : Type :=
| PyNone
| PyBool (b : bool)
| PyInt (n : Z)
| PyFloat (f : spec_float)
| PyStr (s : string)
| PyList (l : list value)
| PyDict (d : gmap string value).

(** [x == s] for a str [s]: only an equal str compares equal. *)
Definition eq_str (x : value) (s : string) : bool :=
  match x with
  | PyStr t => bool_decide (t = s)
  | _ => false
  end.

(** [key in x] for a str [key]: key membership on a dict, element
    membership on a list, substring test on a str; the other values are
    not iterable. *)
Definition contains (key : string) (x : value) : result bool :=
  match x with
  | PyDict d => Ok (bool_decide (is_Some (d !! key)))
  | PyList l => Ok (existsb (fun v => eq_str v key) l)
  | PyStr s => Ok (bool_decide (is_Some (String.index 0 key s)))
  | PyNone | PyBool _ | PyInt _ | PyFloat _ => Raise TypeError
  end.

(** [x[key]] for a str [key]. *)
Definition getitem (x : value) (key : string) : result value :=
  match x with
  | PyDict d =>
      match d !! key with
      | Some v => Ok v
      | None => Raise KeyError
      end
  | _ => Raise TypeError
  end.

(** [x[i]] for a non-negative int [i].  A dict built by [json.loads] has
    str keys only, so an int subscript on it is a KeyError. *)
Definition getitem_int (x : value) (i : nat) : result value :=
  match x with
  | PyList l =>
      match l !! i with
      | Some v => Ok v
      | None => Raise IndexError
      end
  | PyStr s =>
      match String.get i s with
      | Some c => Ok (PyStr (String c EmptyString))
      | None => Raise IndexError
      end
  | PyDict _ => Raise KeyError
  | PyNone | PyBool _ | PyInt _ | PyFloat _ => Raise TypeError
  end.

(** [x[key] = v] for a str [key]; the result is the object after the
    assignment. *)
Definition setitem (x : value) (key : string) (v : value) : result value :=
  match x with
  | PyDict d => Ok (PyDict (<[key := v]> d))
  | _ => Raise TypeError
  end.

(** [x + o] for an [Optional[str]] [o]: defined on two strs only. *)
Definition add_str (x : value) (o : option string) : result value :=
  match x, o with
  | PyStr t, Some s => Ok (PyStr (t ++ s))
  | _, _ => Raise TypeError
  end.

(** [l + x] for a list [l]. *)
Definition list_add (l : list value) (x : value) : result value :=
  match x with
  | PyList r => Ok (PyList (l ++ r))
  | _ => Raise TypeError
  end.

(** A module-level [Optional[str]] constant used as a value. *)
Definition of_optional (o : option string) : value :=
  match o with
  | Some s => PyStr s
  | None => PyNone
  end.

(** Truth value of an [Optional[str]]. *)
Definition truthy (o : option string) : bool :=
  match o with
  | Some s => negb (bool_decide (s = ""))
  | None => false
  end.

(** [o != ""] for an [Optional[str]]. *)
Definition ne_empty (o : option string) : bool :=
  match o with
  | Some s => negb (bool_decide (s = ""))
  | None => true
  end.

(** [f"{o}"] for an [Optional[str]]. *)
Definition format (o : option string) : string :=
  match o with
  | Some s => s
  | None => "None"
  end.

End Py.

Export Py.

Notation "'let*' x ':=' r 'in' k" := (Py.bind r (fun x => k))
  (at level 10, x name, r at level 100, k at level 200).

(** ** Configuration *)

(** The fields of [ApiConfig] after validation; the endpoint is kept in the
    [str(...)] form the handler uses. *)
Record ApiConfig : Type := {
  llm_api_endpoint : string;
  default_model : option string;
  api_key : option string;
  overwrite_system_prompt : option string;
  append_system_prompt : option string
}.

Definition API_ENDPOINT (api_config : ApiConfig) : string := llm_api_endpoint api_config.
Definition MODEL (api_config : ApiConfig) : option string := default_model api_config.
Definition API_KEY (api_config : ApiConfig) : option string := api_key api_config.
Definition OVERWRITE_SYSTEM_PROMPT (api_config : ApiConfig) : option string :=
  overwrite_system_prompt api_config.
Definition APPEND_SYSTEM_PROMPT (api_config : ApiConfig) : option string :=
  append_system_prompt api_config.

(** The guard [P and P != ""] used for the two prompts and for the key. *)
Definition configured (p : option string) : bool := truthy p && ne_empty p.

(** The same configuration with another append prompt. *)
Definition with_append (a : option string) (api_config : ApiConfig) : ApiConfig :=
  {| llm_api_endpoint := llm_api_endpoint api_config;
     default_model := default_model api_config;
     api_key := api_key api_config;
     overwrite_system_prompt := overwrite_system_prompt api_config;
     append_system_prompt := a |}.

(** ** The request rewrite (lines 77-85 of proxy.py) *)

(** The two characters the source writes as ['\\n']: a backslash and the
    letter n. *)
Definition joiner : string := String "092"%char (String "110"%char EmptyString).

(** The one-character string holding a line feed. *)
Definition newline : string := String "010"%char EmptyString.

(** The assignment [incoming_data['messages'][0]['content'] = ...] mutates
    the dict reached by the two subscripts in place.  The parsed body is a
    tree, no dict or list of it is reachable twice, so on [incoming_data]
    the mutation amounts to replacing that one node. *)
Definition with_first (messages first : value) : value :=
  match messages with
  | PyList l => PyList (<[0%nat := first]> l)
  | other => other
  end.

Definition with_messages (incoming_data messages : value) : value :=
  match incoming_data with
  | PyDict d => PyDict (<["messages" := messages]> d)
  | other => other
  end.

Definition set_first_content (incoming_data content : value) : result value :=
  let* messages := getitem incoming_data "messages" in
  let* first := getitem_int messages 0 in
  let* first' := setitem first "content" content in
  Ok (with_messages incoming_data (with_first messages first')).

(** Lines 77-78. *)
Definition rewrite_model (api_config : ApiConfig) (incoming_data : value) : result value :=
  let* present := contains "model" incoming_data in
  if present then setitem incoming_data "model" (of_optional (MODEL api_config))
  else Ok incoming_data.

Definition system_message (prompt : option string) : value :=
  PyDict {[ "role" := PyStr "system"; "content" := of_optional prompt ]}.

(** Lines 80-83. *)
Definition overwrite_prompt (api_config : ApiConfig) (incoming_data : value) : result value :=
  let* messages := getitem incoming_data "messages" in
  let* first := getitem_int messages 0 in
  let* role := getitem first "role" in
  if eq_str role "system" then
    set_first_content incoming_data (of_optional (OVERWRITE_SYSTEM_PROMPT api_config))
  else
    let* messages := getitem incoming_data "messages" in
    let* extended := list_add [system_message (OVERWRITE_SYSTEM_PROMPT api_config)] messages in
    setitem incoming_data "messages" extended.

(** Line 85: the right-hand side is evaluated first, then the target. *)
Definition append_prompt (api_config : ApiConfig) (incoming_data : value) : result value :=
  let* messages := getitem incoming_data "messages" in
  let* first := getitem_int messages 0 in
  let* content := getitem first "content" in
  let* joined := add_str content (Some joiner) in
  let* extended := add_str joined (APPEND_SYSTEM_PROMPT api_config) in
  set_first_content incoming_data extended.

(** Lines 79-85. *)
Definition rewrite_prompts (api_config : ApiConfig) (incoming_data : value) : result value :=
  if configured (OVERWRITE_SYSTEM_PROMPT api_config) then overwrite_prompt api_config incoming_data
  else if configured (APPEND_SYSTEM_PROMPT api_config) then append_prompt api_config incoming_data
  else Ok incoming_data.

(** Lines 77-85. *)
Definition rewrite (api_config : ApiConfig) (incoming_data : value) : result value :=
  let* incoming_data := rewrite_model api_config incoming_data in
  rewrite_prompts api_config incoming_data.

(** ** The streaming generator (lines 88-98) *)

(** The arguments of [client.stream]. *)
Record Request : Type := {
  method : string;
  url : string;
  json : value;
  headers : gmap string string
}.

(** What the generator does, in order: it sends the request, and for every
    chunk of the response it prints the chunk and yields it. *)
Inductive event : Type :=
| Send (r : Request)
| Print (chunk : string)
| Yield (chunk : string).

(** Lines 90-92. *)
Definition build_headers (api_config : ApiConfig) : gmap string string :=
  if configured (API_KEY api_config)
  then <["Authorization" := "Bearer " ++ format (api_key api_config)]> ∅
  else ∅.

Definition outbound (api_config : ApiConfig) (incoming_data : value) : Request :=
  {| method := "POST";
     url := API_ENDPOINT api_config;
     json := incoming_data;
     headers := build_headers api_config |}.

(** Lines 95-98, over the chunks [response.aiter_text()] delivers. *)
Fixpoint relay (chunks : list string) : list event :=
  match chunks with
  | [] => []
  | chunk :: rest => Print chunk :: Yield chunk :: relay rest
  end.

(** The upstream server: the text chunks it answers a request with. *)
Definition upstream : Type := Request -> list string.

Definition proxy_stream (api_config : ApiConfig) (incoming_data : value)
    (server : upstream) : list event :=
  let request := outbound api_config incoming_data in
  Send request :: relay (server request).

(** The requests a run sent and the chunks it yielded to the caller. *)
Fixpoint sent (trace : list event) : list Request :=
  match trace with
  | [] => []
  | Send r :: rest => r :: sent rest
  | _ :: rest => sent rest
  end.

Fixpoint yielded (trace : list event) : list string :=
  match trace with
  | [] => []
  | Yield chunk :: rest => chunk :: yielded rest
  | _ :: rest => yielded rest
  end.

(** ** The handler *)

Record StreamingResponse : Type := {
  body_iterator : list event;
  media_type : string
}.

(** Line 74: [None] stands for a body that is not JSON. *)
Definition request_json (body : option value) : result value :=
  match body with
  | Some v => Ok v
  | None => Raise JSONDecodeError
  end.

Definition handle_chat_completions (api_config : ApiConfig) (server : upstream)
    (body : option value) : result StreamingResponse :=
  let* incoming_data := request_json body in
  let* incoming_data := rewrite api_config incoming_data in
  Ok {| body_iterator := proxy_stream api_config incoming_data server;
        media_type := "application/json" |}.

(** ** Derived notions used in the statements *)

(** The requests sent upstream when the response of a call is consumed;
    a call that raised returned no generator, so nothing is sent. *)
Definition forwarded (r : result StreamingResponse) : list Request :=
  match r with
  | Ok response => sent (body_iterator response)
  | Raise _ => []
  end.

(** The chunks the caller receives. *)
Definition received (r : result StreamingResponse) : list string :=
  match r with
  | Ok response => yielded (body_iterator response)
  | Raise _ => []
  end.

(** The dict lines 77-78 leave behind. *)
Definition model_rewritten (api_config : ApiConfig) (d : gmap string value) : gmap string value :=
  if bool_decide (is_Some (d !! "model"))
  then <["model" := of_optional (MODEL api_config)]> d
  else d.

(** The messages lines 80-83 leave behind when the first message is the
    dict [msg] with role [role]. *)
Definition overwritten (c : ApiConfig) (msg : gmap string value) (role : value)
    (rest : list value) : list value :=
  if eq_str role "system"
  then PyDict (<["content" := of_optional (OVERWRITE_SYSTEM_PROMPT c)]> msg) :: rest
  else system_message (OVERWRITE_SYSTEM_PROMPT c) :: PyDict msg :: rest.

(** The first message line 85 leaves behind. *)
Definition appended (msg : gmap string value) (content prompt : string) : value :=
  PyDict (<["content" := PyStr ((content ++ joiner) ++ prompt)]> msg).

(** The chunks a run wrote to standard output, one [print] each. *)
Fixpoint printed (trace : list event) : list string :=
  match trace with
  | [] => []
  | Print chunk :: rest => chunk :: printed rest
  | _ :: rest => printed rest
  end.

(** An optional setting that is unset or set to the empty string. *)
Definition blank (o : option string) : Prop := o = None \/ o = Some "".

(** Two values of an optional str setting that are equal or both blank. *)
Definition same_setting (o1 o2 : option string) : Prop :=
  o1 = o2 \/ (blank o1 /\ blank o2).

(** The handler returned a response. *)
Definition succeeds (r : result StreamingResponse) : Prop :=
  exists response, r = Ok response.

(** The expression [incoming_data['messages'][0]['content']]. *)
Definition first_content (incoming_data : value) : result value :=
  let* messages := getitem incoming_data "messages" in
  let* first := getitem_int messages 0 in
  getitem first "content".

(** ** Sample inputs *)

Module Sample.

Definition message (role content : string) : value :=
  PyDict {[ "role" := PyStr role; "content" := PyStr content ]}.

Definition config (model key overwrite append : option string) : ApiConfig :=
  {| llm_api_endpoint := "http://localhost:8080/v1/chat/completions";
     default_model := model;
     api_key := key;
     overwrite_system_prompt := overwrite;
     append_system_prompt := append |}.

(** [{"model": "gpt-4", "temperature": 1, "messages": msgs}] *)
Definition chat (msgs : list value) : gmap string value :=
  {[ "model" := PyStr "gpt-4"; "temperature" := PyInt 1; "messages" := PyList msgs ]}.

(** [{"messages": msgs}] *)
Definition bare (msgs : list value) : gmap string value :=
  {[ "messages" := PyList msgs ]}.

Definition echo : upstream := fun _ => ["data: a"; ""; "data: b"].

End Sample.

(** Running the Python operations on values whose shape is known, without
    unfolding lookups in dicts. *)
Ltac py_run :=
  repeat first
    [ progress cbn [bind getitem getitem_int setitem add_str list_add
                    with_first with_messages]
    | match goal with
      | |- context [(?x :: ?l) !! 0%nat] => change ((x :: l) !! 0%nat) with (Some x)
      | |- context [<[0%nat := ?y]> (?x :: ?l)] =>
          change (<[0%nat := y]> (x :: l)) with (y :: l)
      | E : ?d !! ?k = _ |- context [?d !! ?k] => rewrite E
      end ].

Ltac py_fault H :=
  revert H;
  unfold overwrite_prompt, append_prompt, set_first_content;
  py_run; discriminate.

(** ** Basic facts *)

Section Guards.

Lemma configured_true (p : option string) :
  configured p = true <-> exists s, p = Some s /\ s <> "".
Proof.
  unfold configured. destruct p as [s|]; simpl.
  - destruct (bool_decide_reflect (s = "")) as [E|E]; simpl; split.
    + discriminate.
    + intros (t & [= <-] & H). contradiction.
    + intros _. exists s. split; [reflexivity | assumption].
    + reflexivity.
  - split; [discriminate | intros (s & H & _); discriminate].
Qed.

Lemma configured_false (p : option string) :
  configured p = false <-> p = None \/ p = Some "".
Proof.
  unfold configured. destruct p as [s|]; simpl.
  - destruct (bool_decide_reflect (s = "")) as [E|E]; simpl; split.
    + intros _. right. congruence.
    + reflexivity.
    + discriminate.
    + intros [H|[= H]]; [discriminate | contradiction].
  - split; [intros _; left; reflexivity | reflexivity].
Qed.

Lemma configured_with_append_overwrite (a : option string) (c : ApiConfig) :
  OVERWRITE_SYSTEM_PROMPT (with_append a c) = OVERWRITE_SYSTEM_PROMPT c.
Proof. reflexivity. Qed.

End Guards.

Section RewriteModel.

Variable c : ApiConfig.

Lemma rewrite_model_dict (d : gmap string value) :
  rewrite_model c (PyDict d) = Ok (PyDict (model_rewritten c d)).
Proof.
  unfold rewrite_model, model_rewritten. simpl.
  destruct (bool_decide (is_Some (d !! "model"))); reflexivity.
Qed.

Lemma model_rewritten_other (d : gmap string value) (k : string) :
  k <> "model" -> model_rewritten c d !! k = d !! k.
Proof.
  intros Hk. unfold model_rewritten.
  destruct (bool_decide (is_Some (d !! "model"))); [|reflexivity].
  apply lookup_insert_ne. congruence.
Qed.

Lemma model_rewritten_present (d : gmap string value) :
  is_Some (d !! "model") ->
  model_rewritten c d !! "model" = Some (of_optional (MODEL c)).
Proof.
  intros H. unfold model_rewritten. rewrite bool_decide_eq_true_2 by assumption.
  apply lookup_insert_eq.
Qed.

Lemma model_rewritten_absent (d : gmap string value) :
  d !! "model" = None -> model_rewritten c d = d.
Proof.
  intros H. unfold model_rewritten. rewrite bool_decide_eq_false_2; [reflexivity|].
  rewrite H. intros [v Hv]. discriminate.
Qed.

Lemma model_rewritten_dom (d : gmap string value) :
  dom (model_rewritten c d) = dom d.
Proof.
  unfold model_rewritten.
  destruct (bool_decide_reflect (is_Some (d !! "model"))) as [H|H]; [|reflexivity].
  rewrite dom_insert_L. apply elem_of_dom in H.
  apply set_eq. intros k. rewrite elem_of_union, elem_of_singleton.
  split; [intros [->|Hk]; assumption | intros Hk; right; assumption].
Qed.

(** A body that is not a dict either faults or goes through untouched. *)
Lemma rewrite_model_not_dict (v v' : value) :
  (forall d, v <> PyDict d) -> rewrite_model c v = Ok v' -> v' = v.
Proof.
  intros Hv. unfold rewrite_model.
  destruct v as [| | | |s|l|d]; simpl; try discriminate.
  - destruct (bool_decide _); simpl; [discriminate | congruence].
  - destruct (existsb _ l); simpl; [discriminate | congruence].
  - exfalso. apply (Hv d). reflexivity.
Qed.

End RewriteModel.

Section RewritePrompts.

Variable c : ApiConfig.

Lemma overwrite_prompt_dict (d msg : gmap string value) (rest : list value) (role : value) :
  d !! "messages" = Some (PyList (PyDict msg :: rest)) ->
  msg !! "role" = Some role ->
  overwrite_prompt c (PyDict d)
  = Ok (PyDict (<["messages" := PyList (overwritten c msg role rest)]> d)).
Proof.
  intros Hm Hr. unfold overwrite_prompt, set_first_content, overwritten. py_run.
  destruct (eq_str role "system"); py_run; reflexivity.
Qed.

Lemma overwrite_prompt_inv (v v' : value) :
  overwrite_prompt c v = Ok v' ->
  exists d msg rest role,
    v = PyDict d /\ d !! "messages" = Some (PyList (PyDict msg :: rest)) /\
    msg !! "role" = Some role /\
    v' = PyDict (<["messages" := PyList (overwritten c msg role rest)]> d).
Proof.
  intros H. destruct v as [| | | | | |d]; try (py_fault H).
  destruct (d !! "messages") as [ms|] eqn:Hm; [|py_fault H].
  destruct ms as [| | | |s|l|dm]; try (py_fault H).
  - revert H. unfold overwrite_prompt. py_run.
    destruct (String.get 0 s); py_run; discriminate.
  - destruct l as [|first rest]; [py_fault H|].
    destruct first as [| | | | | |msg]; try (py_fault H).
    destruct (msg !! "role") as [role|] eqn:Hr; [|py_fault H].
    rewrite (overwrite_prompt_dict d msg rest role Hm Hr) in H.
    exists d, msg, rest, role. repeat split; try assumption. congruence.
Qed.

Lemma append_prompt_dict (d msg : gmap string value) (rest : list value)
    (content prompt : string) :
  APPEND_SYSTEM_PROMPT c = Some prompt ->
  d !! "messages" = Some (PyList (PyDict msg :: rest)) ->
  msg !! "content" = Some (PyStr content) ->
  append_prompt c (PyDict d)
  = Ok (PyDict (<["messages" := PyList (appended msg content prompt :: rest)]> d)).
Proof.
  intros Ha Hm Hc. unfold append_prompt, set_first_content, appended. py_run.
  rewrite Ha. py_run. reflexivity.
Qed.

Lemma append_prompt_inv (v v' : value) :
  append_prompt c v = Ok v' ->
  exists d msg rest content prompt,
    v = PyDict d /\ APPEND_SYSTEM_PROMPT c = Some prompt /\
    d !! "messages" = Some (PyList (PyDict msg :: rest)) /\
    msg !! "content" = Some (PyStr content) /\
    v' = PyDict (<["messages" := PyList (appended msg content prompt :: rest)]> d).
Proof.
  intros H. destruct v as [| | | | | |d]; try (py_fault H).
  destruct (d !! "messages") as [ms|] eqn:Hm; [|py_fault H].
  destruct ms as [| | | |s|l|dm]; try (py_fault H).
  - revert H. unfold append_prompt. py_run.
    destruct (String.get 0 s); py_run; discriminate.
  - destruct l as [|first rest]; [py_fault H|].
    destruct first as [| | | | | |msg]; try (py_fault H).
    destruct (msg !! "content") as [content|] eqn:Hc; [|py_fault H].
    destruct content as [| | | |content| |]; try (py_fault H).
    destruct (APPEND_SYSTEM_PROMPT c) as [prompt|] eqn:Ha;
      [|revert H; unfold append_prompt; py_run; rewrite Ha; py_run; discriminate].
    rewrite (append_prompt_dict d msg rest content prompt Ha Hm Hc) in H.
    exists d, msg, rest, content, prompt. repeat split; try assumption. congruence.
Qed.

(** Without [messages], or with an empty list, both prompt rewrites
    fault at their first subscripts. *)
Lemma prompts_without_messages (d : gmap string value) :
  d !! "messages" = None ->
  overwrite_prompt c (PyDict d) = Raise KeyError /\
  append_prompt c (PyDict d) = Raise KeyError.
Proof.
  intros Hm. unfold overwrite_prompt, append_prompt. py_run. split; reflexivity.
Qed.

Lemma prompts_with_no_message (d : gmap string value) :
  d !! "messages" = Some (PyList []) ->
  overwrite_prompt c (PyDict d) = Raise IndexError /\
  append_prompt c (PyDict d) = Raise IndexError.
Proof.
  intros Hm. unfold overwrite_prompt, append_prompt. py_run. split; reflexivity.
Qed.

Lemma rewrite_dict (d : gmap string value) :
  rewrite c (PyDict d) = rewrite_prompts c (PyDict (model_rewritten c d)).
Proof. unfold rewrite. rewrite rewrite_model_dict. reflexivity. Qed.

(** A body that [rewrite] lets through and that is not a dict is unchanged. *)
Lemma rewrite_not_dict (v v' : value) :
  (forall d, v <> PyDict d) -> rewrite c v = Ok v' -> v' = v.
Proof.
  intros Hv H. unfold rewrite in H.
  destruct (rewrite_model c v) as [w|e] eqn:Hw; [|discriminate H].
  apply rewrite_model_not_dict in Hw; [|assumption]. subst w. cbn [bind] in H.
  unfold rewrite_prompts in H.
  destruct (configured (OVERWRITE_SYSTEM_PROMPT c)).
  - apply overwrite_prompt_inv in H. destruct H as (d & ? & ? & ? & E & _).
    exfalso. apply (Hv d E).
  - destruct (configured (APPEND_SYSTEM_PROMPT c)).
    + apply append_prompt_inv in H. destruct H as (d & ? & ? & ? & ? & E & _).
      exfalso. apply (Hv d E).
    + congruence.
Qed.

End RewritePrompts.

(** ** The handler and what it forwards *)

Section Handler.

Variables (c : ApiConfig) (server : upstream).

Lemma sent_relay (chunks : list string) : sent (relay chunks) = [].
Proof. induction chunks as [|chunk rest IH]; [reflexivity | exact IH]. Qed.

Lemma yielded_relay (chunks : list string) : yielded (relay chunks) = chunks.
Proof.
  induction chunks as [|chunk rest IH]; [reflexivity|].
  cbn [relay yielded]. rewrite IH. reflexivity.
Qed.

Lemma sent_proxy_stream (v : value) : sent (proxy_stream c v server) = [outbound c v].
Proof. unfold proxy_stream. cbn [sent]. rewrite sent_relay. reflexivity. Qed.

Lemma handle_ok (v v' : value) :
  rewrite c v = Ok v' ->
  handle_chat_completions c server (Some v)
  = Ok {| body_iterator := proxy_stream c v' server; media_type := "application/json" |}.
Proof. intros H. unfold handle_chat_completions. cbn [request_json bind]. rewrite H. reflexivity. Qed.

Lemma handle_raise (v : value) (e : exn) :
  rewrite c v = Raise e -> handle_chat_completions c server (Some v) = Raise e.
Proof. intros H. unfold handle_chat_completions. cbn [request_json bind]. rewrite H. reflexivity. Qed.

Lemma forwarded_ok (v v' : value) :
  rewrite c v = Ok v' ->
  forwarded (handle_chat_completions c server (Some v)) = [outbound c v'].
Proof. intros H. rewrite (handle_ok v v' H). apply sent_proxy_stream. Qed.

Lemma forwarded_inv (body : option value) (req : Request) :
  In req (forwarded (handle_chat_completions c server body)) ->
  exists v v', body = Some v /\ rewrite c v = Ok v' /\ req = outbound c v'.
Proof.
  destruct body as [v|]; [|intros []].
  destruct (rewrite c v) as [v'|e] eqn:H.
  - rewrite (forwarded_ok v v' H). intros [<-|[]]. exists v, v'. auto.
  - rewrite (handle_raise v e H). intros [].
Qed.

End Handler.

Lemma eq_str_true (x : value) (s : string) : eq_str x s = true <-> x = PyStr s.
Proof.
  destruct x; simpl; try (split; [discriminate | intros [=]]).
  rewrite bool_decide_eq_true. split; [intros ->; reflexivity | intros [=]; assumption].
Qed.

Lemma eq_str_false (x : value) (s : string) : eq_str x s = false <-> x <> PyStr s.
Proof.
  rewrite <- eq_str_true. destruct (eq_str x s); split; congruence.
Qed.

Lemma joiner_not_newline (content prompt : string) :
  (content ++ joiner) ++ prompt <> (content ++ newline) ++ prompt.
Proof.
  induction content as [|a content IH]; simpl.
  - discriminate.
  - intros [= H]. exact (IH H).
Qed.


(** What lines 79-85 can change in a dict they let through: the value of
    [messages] only, and there either the first message, or one message
    put in front. *)
Lemma rewrite_prompts_frame (c : ApiConfig) (d : gmap string value) (v' : value) :
  rewrite_prompts c (PyDict d) = Ok v' ->
  exists d',
    v' = PyDict d' /\
    dom d' = dom d /\
    (forall k, k <> "messages" -> d' !! k = d !! k) /\
    (d' !! "messages" = d !! "messages" \/
     exists first rest,
       d !! "messages" = Some (PyList (first :: rest)) /\
       ((exists first', d' !! "messages" = Some (PyList (first' :: rest))) \/
        (exists extra, d' !! "messages" = Some (PyList (extra :: first :: rest))))).
Proof.
  assert (Hdom : forall (ms ms' : value), d !! "messages" = Some ms ->
            dom (<["messages" := ms']> d) = dom d).
  { intros ms ms' Hms. rewrite dom_insert_L.
    assert (Hin : "messages" ∈ dom d) by (apply elem_of_dom; eauto).
    apply set_eq. intros k. rewrite elem_of_union, elem_of_singleton.
    split; [intros [->|Hk]; assumption | intros Hk; right; assumption]. }
  intros H. unfold rewrite_prompts in H.
  destruct (configured (OVERWRITE_SYSTEM_PROMPT c)).
  - apply overwrite_prompt_inv in H.
    destruct H as (d0 & msg & rest & role & [= <-] & Hm & _ & ->).
    eexists. split; [reflexivity|]. split; [exact (Hdom _ _ Hm)|].
    split; [intros k Hk; apply lookup_insert_ne; congruence|].
    right. exists (PyDict msg), rest. split; [exact Hm|].
    rewrite lookup_insert_eq. unfold overwritten.
    destruct (eq_str role "system"); [left | right]; eexists; reflexivity.
  - destruct (configured (APPEND_SYSTEM_PROMPT c)).
    + apply append_prompt_inv in H.
      destruct H as (d0 & msg & rest & content & prompt & [= <-] & _ & Hm & _ & ->).
      eexists. split; [reflexivity|]. split; [exact (Hdom _ _ Hm)|].
      split; [intros k Hk; apply lookup_insert_ne; congruence|].
      right. exists (PyDict msg), rest. split; [exact Hm|].
      rewrite lookup_insert_eq. left. eexists. reflexivity.
    + injection H as <-. exists d. repeat split. left. reflexivity.
Qed.

(** ** The model field (lines 77-78) *)

(** C1, as stated, fails: with the default model "llama3" configured, the
    body [{"messages": [{"role": "user", "content": "hi"}]}], which has no
    [model] field, is forwarded as it came, still without a [model]
    field. *)
Lemma C1_counterexample :
  let c := Sample.config (Some "llama3") None None None in
  let body := PyDict (Sample.bare [Sample.message "user" "hi"]) in
  MODEL c = Some "llama3" /\
  forwarded (handle_chat_completions c Sample.echo (Some body)) = [outbound c body] /\
  getitem (json (outbound c body)) "model" = Raise KeyError /\
  getitem (json (outbound c body)) "model" <> Ok (PyStr "llama3").
Proof.
  cbv zeta. split; [reflexivity|]. split; [vm_compute; reflexivity|].
  split; [vm_compute; reflexivity | vm_compute; discriminate].
Qed.

(** C1, amended: while a default model is configured, every request
    forwarded for a JSON-object body that has a [model] field carries the
    configured default as its [model], whatever the inbound value was; a
    body without a [model] field is forwarded without one. *)
Theorem C1_model_forced_when_present (c : ApiConfig) (server : upstream)
    (d : gmap string value) (model : string) (req : Request) :
  MODEL c = Some model ->
  In req (forwarded (handle_chat_completions c server (Some (PyDict d)))) ->
  (is_Some (d !! "model") -> getitem (json req) "model" = Ok (PyStr model)) /\
  (d !! "model" = None -> getitem (json req) "model" = Raise KeyError).
Proof.
  intros Hmodel Hreq.
  apply forwarded_inv in Hreq. destruct Hreq as (v & v' & [= <-] & Hrw & ->).
  rewrite rewrite_dict in Hrw. apply rewrite_prompts_frame in Hrw.
  destruct Hrw as (d' & -> & _ & Hkeep & _).
  cbn [outbound json getitem]. rewrite Hkeep by discriminate. split.
  - intros Hin. rewrite (model_rewritten_present c d Hin), Hmodel. reflexivity.
  - intros Hout. rewrite (model_rewritten_absent c d Hout), Hout. reflexivity.
Qed.

Lemma C1_model_forced_when_present_witness :
  let c := Sample.config (Some "llama3") None (Some "X") None in
  let d := Sample.chat [Sample.message "user" "hi"] in
  let req := outbound c (PyDict (<["messages" := PyList [Sample.message "system" "X";
                                                         Sample.message "user" "hi"]]>
                                  (<["model" := PyStr "llama3"]> d))) in
  MODEL c = Some "llama3" /\
  In req (forwarded (handle_chat_completions c Sample.echo (Some (PyDict d)))) /\
  is_Some (d !! "model") /\
  getitem (json req) "model" = Ok (PyStr "llama3").
Proof.
  cbv zeta.
  assert (Hmodel : MODEL (Sample.config (Some "llama3") None (Some "X") None) = Some "llama3")
    by reflexivity.
  assert (Hreq : In (outbound (Sample.config (Some "llama3") None (Some "X") None)
                       (PyDict (<["messages" := PyList [Sample.message "system" "X";
                                                        Sample.message "user" "hi"]]>
                                  (<["model" := PyStr "llama3"]>
                                     (Sample.chat [Sample.message "user" "hi"])))))
                    (forwarded (handle_chat_completions
                                  (Sample.config (Some "llama3") None (Some "X") None)
                                  Sample.echo
                                  (Some (PyDict (Sample.chat [Sample.message "user" "hi"]))))))
    by (vm_compute; left; reflexivity).
  assert (Hin : is_Some (Sample.chat [Sample.message "user" "hi"] !! "model"))
    by (vm_compute; eexists; reflexivity).
  split; [exact Hmodel|]. split; [exact Hreq|]. split; [exact Hin|].
  exact (proj1 (C1_model_forced_when_present _ _ _ _ _ Hmodel Hreq) Hin).
Defined.

(** ** The prompt rewrites (lines 79-85) *)

(** What line 85 does to a first message with a str content, whatever its
    role: the content is followed by the joiner, a backslash and the letter
    n, and then by the append prompt. *)
Lemma append_joins_with_backslash_n (c : ApiConfig) (server : upstream)
    (d msg : gmap string value) (rest : list value) (content prompt : string) :
  configured (OVERWRITE_SYSTEM_PROMPT c) = false ->
  APPEND_SYSTEM_PROMPT c = Some prompt -> prompt <> "" ->
  d !! "messages" = Some (PyList (PyDict msg :: rest)) ->
  msg !! "content" = Some (PyStr content) ->
  forwarded (handle_chat_completions c server (Some (PyDict d)))
  = [outbound c (PyDict (<["messages" := PyList (appended msg content prompt :: rest)]>
                           (model_rewritten c d)))].
Proof.
  intros Hover Happ Hne Hm Hc. apply forwarded_ok.
  rewrite rewrite_dict. unfold rewrite_prompts. rewrite Hover.
  assert (Hconf : configured (APPEND_SYSTEM_PROMPT c) = true)
    by (apply configured_true; eauto).
  rewrite Hconf. apply append_prompt_dict; try assumption.
  rewrite model_rewritten_other by discriminate. exact Hm.
Qed.

(** C2 at the spec's own example: with no overwrite prompt and the append
    prompt "Y", the body [{"messages": [{"role": "user", "content": "hi"}]}]
    is forwarded with the first content "hi", a backslash, the letter n and
    "Y" (five characters), which is not "hi", a line feed and "Y". *)
Theorem C2_append_example :
  let c := Sample.config None None None (Some "Y") in
  let body := PyDict (Sample.bare [Sample.message "user" "hi"]) in
  let code := String "h" (String "i" (String "092" (String "n" (String "Y" EmptyString)))) in
  let claim := String "h" (String "i" (String "010" (String "Y" EmptyString))) in
  forwarded (handle_chat_completions c Sample.echo (Some body))
  = [outbound c (PyDict (Sample.bare [Sample.message "user" code]))] /\
  code <> claim /\ String.length code = 5 /\ String.length claim = 4.
Proof.
  cbv zeta. split; [vm_compute; reflexivity|].
  split; [discriminate|]. split; reflexivity.
Qed.

(** C3: the chunks the generator yields are exactly the chunks of the
    upstream response, in the same order and with the same boundaries; so
    are the chunks the caller of the handler receives, and their
    concatenation is the concatenation of the upstream chunks. *)
Theorem C3_stream_relayed_verbatim (c : ApiConfig) (server : upstream) (v : value) :
  yielded (proxy_stream c v server) = server (outbound c v) /\
  String.concat "" (yielded (proxy_stream c v server))
  = String.concat "" (server (outbound c v)) /\
  (forall v', rewrite c v = Ok v' ->
     received (handle_chat_completions c server (Some v)) = server (outbound c v')).
Proof.
  assert (H : forall w, yielded (proxy_stream c w server) = server (outbound c w)).
  { intros w. unfold proxy_stream. cbn [yielded]. apply yielded_relay. }
  split; [apply H|]. split; [rewrite H; reflexivity|].
  intros v' Hv'. rewrite (handle_ok c server v v' Hv'). apply H.
Qed.

(** C4: with a non-empty overwrite prompt X and a messages list whose first
    message is an object with a role, the forwarded messages are: when that
    role is "system", the same list with the first message's content set to
    X; otherwise the message [{"role": "system", "content": X}] followed by
    the whole original list. *)
Theorem C4_overwrite_prompt (c : ApiConfig) (server : upstream)
    (d msg : gmap string value) (rest : list value) (role : value) (X : string) :
  OVERWRITE_SYSTEM_PROMPT c = Some X -> X <> "" ->
  d !! "messages" = Some (PyList (PyDict msg :: rest)) ->
  msg !! "role" = Some role ->
  exists req,
    forwarded (handle_chat_completions c server (Some (PyDict d))) = [req] /\
    (role = PyStr "system" ->
     getitem (json req) "messages"
     = Ok (PyList (PyDict (<["content" := PyStr X]> msg) :: rest))) /\
    (role <> PyStr "system" ->
     getitem (json req) "messages"
     = Ok (PyList (PyDict {[ "role" := PyStr "system"; "content" := PyStr X ]}
                   :: PyDict msg :: rest))).
Proof.
  intros Hover Hne Hm Hr.
  assert (Hconf : configured (OVERWRITE_SYSTEM_PROMPT c) = true)
    by (apply configured_true; eauto).
  assert (Hm' : model_rewritten c d !! "messages" = Some (PyList (PyDict msg :: rest)))
    by (rewrite model_rewritten_other by discriminate; exact Hm).
  eexists. split.
  - apply forwarded_ok. rewrite rewrite_dict. unfold rewrite_prompts. rewrite Hconf.
    apply (overwrite_prompt_dict c _ msg rest role Hm' Hr).
  - cbn [outbound json getitem]. rewrite lookup_insert_eq.
    unfold overwritten, system_message. rewrite Hover. cbn [of_optional]. split.
    + intros Hsys. apply eq_str_true in Hsys. rewrite Hsys. reflexivity.
    + intros Hsys. apply eq_str_false in Hsys. rewrite Hsys. reflexivity.
Qed.

Lemma C4_overwrite_prompt_witness :
  let c := Sample.config None None (Some "X") None in
  let old := Sample.message "system" "old" in
  let hi := Sample.message "user" "hi" in
  exists req,
    forwarded (handle_chat_completions c Sample.echo (Some (PyDict (Sample.bare [old; hi]))))
    = [req] /\
    getitem (json req) "messages" = Ok (PyList [Sample.message "system" "X"; hi]).
Proof.
  cbv zeta.
  destruct (C4_overwrite_prompt (Sample.config None None (Some "X") None) Sample.echo
              (Sample.bare [Sample.message "system" "old"; Sample.message "user" "hi"])
              {[ "role" := PyStr "system"; "content" := PyStr "old" ]}
              [Sample.message "user" "hi"] (PyStr "system") "X")
    as (req & Hreq & Hsys & _).
  - reflexivity.
  - discriminate.
  - vm_compute. reflexivity.
  - vm_compute. reflexivity.
  - exists req. split; [exact Hreq|]. rewrite (Hsys eq_refl). vm_compute. reflexivity.
Defined.

(** C5: when the overwrite prompt is configured non-empty, the handler
    behaves the same whatever the append prompt is, so the append prompt has
    no effect; hence an append prompt that does change the outcome shows
    that the overwrite prompt is absent or empty; and in that case lines
    84-85 alone decide what happens to the messages. *)
Theorem C5_overwrite_excludes_append (c : ApiConfig) (server : upstream)
    (body : option value) (a : option string) :
  (configured (OVERWRITE_SYSTEM_PROMPT c) = true ->
   handle_chat_completions (with_append a c) server body
   = handle_chat_completions c server body) /\
  (handle_chat_completions (with_append a c) server body
   <> handle_chat_completions (with_append None c) server body ->
   OVERWRITE_SYSTEM_PROMPT c = None \/ OVERWRITE_SYSTEM_PROMPT c = Some "") /\
  (configured (OVERWRITE_SYSTEM_PROMPT c) = false ->
   forall v, rewrite_prompts c v
             = if configured (APPEND_SYSTEM_PROMPT c) then append_prompt c v else Ok v).
Proof.
  assert (Hsame : forall a1 a2, configured (OVERWRITE_SYSTEM_PROMPT c) = true ->
            handle_chat_completions (with_append a1 c) server body
            = handle_chat_completions (with_append a2 c) server body).
  { intros a1 a2 Hover. unfold handle_chat_completions, rewrite.
    destruct (request_json body) as [v|e]; [|reflexivity]. cbn [bind].
    change (rewrite_model (with_append a1 c) v) with (rewrite_model c v).
    change (rewrite_model (with_append a2 c) v) with (rewrite_model c v).
    destruct (rewrite_model c v) as [w|e]; [|reflexivity]. cbn [bind].
    unfold rewrite_prompts. rewrite !configured_with_append_overwrite, Hover.
    reflexivity. }
  split; [|split].
  - intros Hover. destruct c as [endpoint model key over app].
    apply (Hsame a app Hover).
  - intros Hdiff. apply configured_false.
    destruct (configured (OVERWRITE_SYSTEM_PROMPT c)) eqn:Hover; [|reflexivity].
    exfalso. apply Hdiff. apply Hsame. reflexivity.
  - intros Hover v. unfold rewrite_prompts. rewrite Hover. reflexivity.
Qed.

Lemma C5_overwrite_excludes_append_witness :
  let c := Sample.config None None (Some "X") None in
  let body := Some (PyDict (Sample.bare [Sample.message "user" "hi"])) in
  configured (OVERWRITE_SYSTEM_PROMPT c) = true /\
  handle_chat_completions (with_append (Some "Y") c) Sample.echo body
  = handle_chat_completions c Sample.echo body.
Proof.
  cbv zeta. split; [reflexivity|].
  apply (proj1 (C5_overwrite_excludes_append (Sample.config None None (Some "X") None)
                  Sample.echo
                  (Some (PyDict (Sample.bare [Sample.message "user" "hi"])))
                  (Some "Y"))).
  reflexivity.
Defined.

(** ** The outbound headers (lines 90-92) *)

(** C6: a forwarded request has the header [Authorization] exactly when the
    API key is set and non-empty, and its value is then "Bearer " followed
    by the key; with the key unset or empty the request has no header at
    all. *)
Theorem C6_authorization_header (c : ApiConfig) (v : value) :
  (forall h, headers (outbound c v) !! "Authorization" = Some h <->
             exists key, API_KEY c = Some key /\ key <> "" /\ h = "Bearer " ++ key) /\
  (API_KEY c = None \/ API_KEY c = Some "" -> headers (outbound c v) = ∅) /\
  (forall server body req,
     In req (forwarded (handle_chat_completions c server body)) ->
     headers req = headers (outbound c v)).
Proof.
  cbn [outbound headers]. unfold build_headers, API_KEY. split; [|split].
  - intros h. destruct (configured (api_key c)) eqn:Hkey.
    + apply configured_true in Hkey. destruct Hkey as (key & Hkey & Hne).
      rewrite Hkey. cbn [format]. rewrite lookup_insert_eq. split.
      * intros [= <-]. exists key. auto.
      * intros (key' & [= <-] & _ & ->). reflexivity.
    + rewrite lookup_empty. split; [discriminate|].
      intros (key & Hsome & Hne & _). apply configured_false in Hkey.
      destruct Hkey as [Hkey|Hkey]; congruence.
  - intros Hkey. apply configured_false in Hkey. rewrite Hkey. reflexivity.
  - intros server body req Hreq. apply forwarded_inv in Hreq.
    destruct Hreq as (w & w' & _ & _ & ->). reflexivity.
Qed.

Lemma C6_authorization_header_witness :
  let c := Sample.config None (Some "secret") None None in
  let body := PyDict (Sample.bare [Sample.message "user" "hi"]) in
  API_KEY c = Some "secret" /\
  headers (outbound c body) !! "Authorization" = Some "Bearer secret".
Proof.
  cbv zeta. split; [reflexivity|].
  apply (proj1 (C6_authorization_header (Sample.config None (Some "secret") None None)
                  (PyDict (Sample.bare [Sample.message "user" "hi"])))).
  exists "secret". split; [reflexivity|]. split; [discriminate | reflexivity].
Defined.

(** ** Faults of the rewrite *)

(** With a prompt rewrite configured, only a dict gets through. *)
Lemma rewrite_prompts_fault_not_dict (c : ApiConfig) (v : value) :
  configured (OVERWRITE_SYSTEM_PROMPT c) || configured (APPEND_SYSTEM_PROMPT c) = true ->
  (forall d, v <> PyDict d) ->
  exists e, rewrite c v = Raise e.
Proof.
  intros Hconf Hv. destruct (rewrite c v) as [v'|e] eqn:H; [|eauto].
  exfalso. unfold rewrite in H.
  destruct (rewrite_model c v) as [w|e] eqn:Hw; [|discriminate H].
  apply rewrite_model_not_dict in Hw; [|assumption]. subst w. cbn [bind] in H.
  unfold rewrite_prompts in H.
  destruct (configured (OVERWRITE_SYSTEM_PROMPT c)).
  - apply overwrite_prompt_inv in H. destruct H as (d & ? & ? & ? & E & _).
    apply (Hv d E).
  - destruct (configured (APPEND_SYSTEM_PROMPT c)); [|discriminate Hconf].
    apply append_prompt_inv in H. destruct H as (d & ? & ? & ? & ? & E & _).
    apply (Hv d E).
Qed.

(** C7: when a prompt rewrite is configured non-empty and the parsed body
    has no [messages] field, or has the empty list as [messages], the
    rewrite raises, the handler raises the same exception and returns no
    response, and nothing is forwarded (the handler makes no second
    attempt: it has no other path to a request).  For a JSON object the
    exception is a KeyError when [messages] is missing and an IndexError
    when it is empty. *)
Theorem C7_missing_messages_fault (c : ApiConfig) (server : upstream) (v : value) :
  configured (OVERWRITE_SYSTEM_PROMPT c) || configured (APPEND_SYSTEM_PROMPT c) = true ->
  (forall messages, getitem v "messages" = Ok messages -> messages = PyList []) ->
  exists e,
    rewrite c v = Raise e /\
    handle_chat_completions c server (Some v) = Raise e /\
    forwarded (handle_chat_completions c server (Some v)) = [] /\
    (forall d, v = PyDict d ->
               e = match d !! "messages" with Some _ => IndexError | None => KeyError end).
Proof.
  intros Hconf Hm.
  assert (Hfin : forall e, rewrite c v = Raise e ->
            handle_chat_completions c server (Some v) = Raise e /\
            forwarded (handle_chat_completions c server (Some v)) = []).
  { intros e H. rewrite (handle_raise c server _ _ H). split; reflexivity. }
  assert (Hother : (forall d, v <> PyDict d) ->
            exists e,
              rewrite c v = Raise e /\
              handle_chat_completions c server (Some v) = Raise e /\
              forwarded (handle_chat_completions c server (Some v)) = [] /\
              (forall d, v = PyDict d ->
                 e = match d !! "messages" with Some _ => IndexError | None => KeyError end)).
  { intros Hv. destruct (rewrite_prompts_fault_not_dict c v Hconf Hv) as [e He].
    exists e. split; [exact He|]. destruct (Hfin e He) as [H1 H2].
    split; [exact H1|]. split; [exact H2|]. intros d E. exfalso. apply (Hv d E). }
  destruct v as [| | | | | |d]; try (apply Hother; discriminate). clear Hother.
  assert (Hm' : model_rewritten c d !! "messages" = d !! "messages")
    by (apply model_rewritten_other; discriminate).
  assert (H : rewrite c (PyDict d)
              = Raise match d !! "messages" with Some _ => IndexError | None => KeyError end).
  { rewrite rewrite_dict. unfold rewrite_prompts.
    cbn [getitem] in Hm. destruct (d !! "messages") as [ms|] eqn:Hd.
    - rewrite (Hm ms eq_refl) in Hm'.
      destruct (prompts_with_no_message c _ Hm') as [Ho Ha].
      destruct (configured (OVERWRITE_SYSTEM_PROMPT c)); [exact Ho|].
      destruct (configured (APPEND_SYSTEM_PROMPT c)); [exact Ha | discriminate Hconf].
    - destruct (prompts_without_messages c _ Hm') as [Ho Ha].
      destruct (configured (OVERWRITE_SYSTEM_PROMPT c)); [exact Ho|].
      destruct (configured (APPEND_SYSTEM_PROMPT c)); [exact Ha | discriminate Hconf]. }
  eexists. split; [exact H|]. destruct (Hfin _ H) as [H1 H2].
  split; [exact H1|]. split; [exact H2|]. intros d' [= <-]. reflexivity.
Qed.

Lemma C7_missing_messages_fault_witness :
  let c := Sample.config (Some "llama3") None None (Some "Y") in
  let d : gmap string value := {[ "model" := PyStr "gpt-4"; "stream" := PyBool true ]} in
  handle_chat_completions c Sample.echo (Some (PyDict d)) = Raise KeyError /\
  handle_chat_completions c Sample.echo (Some (PyDict (Sample.chat []))) = Raise IndexError.
Proof.
  cbv zeta. split.
  - destruct (C7_missing_messages_fault (Sample.config (Some "llama3") None None (Some "Y"))
                Sample.echo
                (PyDict {[ "model" := PyStr "gpt-4"; "stream" := PyBool true ]}))
      as (e & _ & Hh & _ & He).
    + reflexivity.
    + intros messages. vm_compute. discriminate.
    + rewrite Hh, (He _ eq_refl). vm_compute. reflexivity.
  - destruct (C7_missing_messages_fault (Sample.config (Some "llama3") None None (Some "Y"))
                Sample.echo (PyDict (Sample.chat [])))
      as (e & _ & Hh & _ & He).
    + reflexivity.
    + intros messages. vm_compute. intros [= <-]. reflexivity.
    + rewrite Hh, (He _ eq_refl). vm_compute. reflexivity.
Defined.

(** ** What the rewrite leaves alone *)

(** C8: in a forwarded request the body differs from the inbound JSON
    object at most in [model] and [messages]: it has the same fields, every
    other field has its inbound value, and [messages] is either unchanged,
    or changed in its first element only, or extended by one message in
    front of the unchanged list, so the messages after the first are always
    the inbound ones.  A body that is not an object is forwarded as it
    came. *)
Theorem C8_rewrite_frame (c : ApiConfig) (server : upstream) (v : value) (req : Request) :
  In req (forwarded (handle_chat_completions c server (Some v))) ->
  (forall d, v = PyDict d ->
     exists d',
       json req = PyDict d' /\
       dom d' = dom d /\
       (forall k, k <> "model" -> k <> "messages" -> d' !! k = d !! k) /\
       (d' !! "messages" = d !! "messages" \/
        exists first rest,
          d !! "messages" = Some (PyList (first :: rest)) /\
          ((exists first', d' !! "messages" = Some (PyList (first' :: rest))) \/
           (exists extra, d' !! "messages" = Some (PyList (extra :: first :: rest)))))) /\
  ((forall d, v <> PyDict d) -> json req = v).
Proof.
  intros Hreq. apply forwarded_inv in Hreq.
  destruct Hreq as (w & w' & [= <-] & Hrw & ->). cbn [outbound json]. split.
  - intros d ->. rewrite rewrite_dict in Hrw. apply rewrite_prompts_frame in Hrw.
    destruct Hrw as (d' & -> & Hdom & Hkeep & Hmsgs).
    exists d'. split; [reflexivity|].
    split; [rewrite Hdom; apply model_rewritten_dom|].
    split.
    + intros k Hmodel Hmessages. rewrite (Hkeep k Hmessages).
      apply model_rewritten_other. exact Hmodel.
    + rewrite (model_rewritten_other c d "messages") in Hmsgs by discriminate.
      exact Hmsgs.
  - intros Hv. exact (rewrite_not_dict c v w' Hv Hrw).
Qed.

Lemma C8_rewrite_frame_witness :
  let c := Sample.config (Some "llama3") (Some "secret") (Some "X") (Some "Y") in
  let d := Sample.chat [Sample.message "user" "hi"; Sample.message "assistant" "hello"] in
  let req := outbound c (PyDict (<["messages" := PyList [Sample.message "system" "X";
                                                         Sample.message "user" "hi";
                                                         Sample.message "assistant" "hello"]]>
                                  (<["model" := PyStr "llama3"]> d))) in
  In req (forwarded (handle_chat_completions c Sample.echo (Some (PyDict d)))) /\
  exists d', json req = PyDict d' /\ d' !! "temperature" = Some (PyInt 1).
Proof.
  cbv zeta.
  assert (Hreq : In (outbound
                       (Sample.config (Some "llama3") (Some "secret") (Some "X") (Some "Y"))
                       (PyDict (<["messages" := PyList [Sample.message "system" "X";
                                                        Sample.message "user" "hi";
                                                        Sample.message "assistant" "hello"]]>
                                  (<["model" := PyStr "llama3"]>
                                     (Sample.chat [Sample.message "user" "hi";
                                                   Sample.message "assistant" "hello"])))))
                    (forwarded (handle_chat_completions
                       (Sample.config (Some "llama3") (Some "secret") (Some "X") (Some "Y"))
                       Sample.echo
                       (Some (PyDict (Sample.chat [Sample.message "user" "hi";
                                                   Sample.message "assistant" "hello"]))))))
    by (vm_compute; left; reflexivity).
  split; [exact Hreq|].
  destruct (C8_rewrite_frame _ _ _ _ Hreq) as [Hdict _].
  destruct (Hdict _ eq_refl) as (d' & Hjson & _ & Hkeep & _).
  exists d'. split; [exact Hjson|].
  rewrite Hkeep by discriminate. vm_compute. reflexivity.
Defined.

(** C9: with no default model configured, a request forwarded for a JSON
    object that has a [model] field carries [model] set to None (JSON null),
    not the model the client asked for. *)
Theorem C9_model_nulled_without_default (c : ApiConfig) (server : upstream)
    (d : gmap string value) (req : Request) :
  MODEL c = None ->
  is_Some (d !! "model") ->
  In req (forwarded (handle_chat_completions c server (Some (PyDict d)))) ->
  getitem (json req) "model" = Ok PyNone.
Proof.
  intros Hmodel Hin Hreq. apply forwarded_inv in Hreq.
  destruct Hreq as (v & v' & [= <-] & Hrw & ->).
  rewrite rewrite_dict in Hrw. apply rewrite_prompts_frame in Hrw.
  destruct Hrw as (d' & -> & _ & Hkeep & _).
  cbn [outbound json getitem]. rewrite Hkeep by discriminate.
  rewrite (model_rewritten_present c d Hin), Hmodel. reflexivity.
Qed.

Lemma C9_model_nulled_without_default_witness :
  let c := Sample.config None None None None in
  let d := Sample.chat [Sample.message "user" "hi"] in
  let req := outbound c (PyDict (<["model" := PyNone]> d)) in
  In req (forwarded (handle_chat_completions c Sample.echo (Some (PyDict d)))) /\
  getitem (PyDict d) "model" = Ok (PyStr "gpt-4") /\
  getitem (json req) "model" = Ok PyNone.
Proof.
  cbv zeta.
  assert (Hreq : In (outbound (Sample.config None None None None)
                       (PyDict (<["model" := PyNone]>
                                  (Sample.chat [Sample.message "user" "hi"]))))
                    (forwarded (handle_chat_completions (Sample.config None None None None)
                                  Sample.echo
                                  (Some (PyDict (Sample.chat [Sample.message "user" "hi"]))))))
    by (vm_compute; left; reflexivity).
  split; [exact Hreq|]. split; [vm_compute; reflexivity|].
  apply (C9_model_nulled_without_default (Sample.config None None None None) Sample.echo
           (Sample.chat [Sample.message "user" "hi"])).
  - reflexivity.
  - vm_compute. eexists. reflexivity.
  - exact Hreq.
Defined.

(** C10: when neither prompt is configured non-empty, the rewrite is the
    rewrite of the model field alone, which never looks at [messages]: a
    JSON object is always let through, with or without a [messages] field
    and whatever its value, and the forwarded [messages] is the inbound
    one (absent when it was absent). *)
Theorem C10_messages_untouched_without_prompts (c : ApiConfig) (server : upstream) :
  OVERWRITE_SYSTEM_PROMPT c = None \/ OVERWRITE_SYSTEM_PROMPT c = Some "" ->
  APPEND_SYSTEM_PROMPT c = None \/ APPEND_SYSTEM_PROMPT c = Some "" ->
  (forall v, rewrite c v = rewrite_model c v) /\
  (forall d, exists d',
     rewrite c (PyDict d) = Ok (PyDict d') /\
     forwarded (handle_chat_completions c server (Some (PyDict d))) = [outbound c (PyDict d')] /\
     d' !! "messages" = d !! "messages").
Proof.
  intros Hover Happ. apply configured_false in Hover, Happ.
  assert (Hrw : forall v, rewrite c v = rewrite_model c v).
  { intros v. unfold rewrite, rewrite_prompts. rewrite Hover, Happ.
    destruct (rewrite_model c v); reflexivity. }
  split; [exact Hrw|]. intros d. exists (model_rewritten c d).
  assert (H : rewrite c (PyDict d) = Ok (PyDict (model_rewritten c d)))
    by (rewrite Hrw; apply rewrite_model_dict).
  split; [exact H|]. split; [exact (forwarded_ok c server _ _ H)|].
  apply model_rewritten_other. discriminate.
Qed.

Lemma C10_messages_untouched_without_prompts_witness :
  let c := Sample.config (Some "llama3") None None (Some "") in
  let d : gmap string value := {[ "model" := PyStr "gpt-4" ]} in
  exists d',
    rewrite c (PyDict d) = Ok (PyDict d') /\ d' !! "messages" = None /\
    exists e',
      rewrite c (PyDict (Sample.bare [])) = Ok (PyDict e') /\
      e' !! "messages" = Some (PyList []).
Proof.
  cbv zeta.
  destruct (C10_messages_untouched_without_prompts
              (Sample.config (Some "llama3") None None (Some "")) Sample.echo)
    as [_ H].
  - left. reflexivity.
  - right. reflexivity.
  - destruct (H {[ "model" := PyStr "gpt-4" ]}) as (d' & Hd' & _ & Hm).
    destruct (H (Sample.bare [])) as (e' & He' & _ & Hn).
    exists d'. split; [exact Hd'|]. split; [rewrite Hm; vm_compute; reflexivity|].
    exists e'. split; [exact He'|]. rewrite Hn. vm_compute. reflexivity.
Defined.

(** ** Further properties of the handler *)

Lemma succeeds_iff_rewrite (c : ApiConfig) (server : upstream) (v : value) :
  succeeds (handle_chat_completions c server (Some v)) <-> exists v', rewrite c v = Ok v'.
Proof.
  unfold succeeds. split.
  - intros [response H]. destruct (rewrite c v) as [v'|e] eqn:Hrw; [eauto|].
    rewrite (handle_raise c server v e Hrw) in H. discriminate H.
  - intros [v' Hrw]. rewrite (handle_ok c server v v' Hrw). eauto.
Qed.

Lemma printed_relay (chunks : list string) : printed (relay chunks) = chunks.
Proof.
  induction chunks as [|chunk rest IH]; [reflexivity|].
  cbn [relay printed]. rewrite IH. reflexivity.
Qed.

Lemma relay_length (chunks : list string) :
  length (relay chunks) = 2 * length chunks.
Proof.
  induction chunks as [|chunk rest IH]; [reflexivity|].
  cbn [relay length]. rewrite IH. lia.
Qed.

Lemma relay_yield_after_print (chunks : list string) (i : nat) (chunk : string) :
  relay chunks !! i = Some (Yield chunk) ->
  exists j, i = S j /\ relay chunks !! j = Some (Print chunk).
Proof.
  revert i. induction chunks as [|first rest IH]; intros i H; [discriminate H|].
  destruct i as [|[|k]].
  - discriminate H.
  - injection H as <-. exists 0%nat. split; reflexivity.
  - destruct (IH k H) as (j & -> & Hj). exists (S (S j)). split; [reflexivity | exact Hj].
Qed.

Lemma relay_no_send (chunks : list string) (i : nat) (r : Request) :
  relay chunks !! i <> Some (Send r).
Proof.
  revert i. induction chunks as [|first rest IH]; intros i; [discriminate|].
  destruct i as [|[|k]]; [discriminate | discriminate | apply IH].
Qed.


(** X2: the generator first sends the request and then, for each chunk of
    the response in turn, prints it and yields it: the printed chunks and
    the yielded chunks are both the upstream chunks, the only request sent
    is the first event, and every yield comes right after the print of the
    same chunk. *)
Theorem X2_print_then_yield (c : ApiConfig) (server : upstream) (v : value) :
  let trace := proxy_stream c v server in
  let chunks := server (outbound c v) in
  printed trace = chunks /\
  printed trace = yielded trace /\
  length trace = 1 + 2 * length chunks /\
  (forall i r, trace !! i = Some (Send r) <-> i = 0%nat /\ r = outbound c v) /\
  (forall i chunk, trace !! i = Some (Yield chunk) ->
     exists j, i = S j /\ trace !! j = Some (Print chunk)).
Proof.
  cbv zeta. unfold proxy_stream.
  split; [cbn [printed]; apply printed_relay|].
  split; [cbn [printed yielded]; rewrite printed_relay, yielded_relay; reflexivity|].
  split; [cbn [length]; rewrite relay_length; lia|].
  split.
  - intros i r. destruct i as [|k]; split.
    + intros [= <-]. split; reflexivity.
    + intros [_ ->]. reflexivity.
    + intros H. exfalso. exact (relay_no_send _ k r H).
    + intros [H _]. discriminate H.
  - intros i chunk H. destruct i as [|k]; [discriminate H|].
    destruct (relay_yield_after_print _ k chunk H) as (j & -> & Hj).
    exists (S j). split; [reflexivity | exact Hj].
Qed.

(** X3: the relay keeps no state between chunks: the events for a response
    that continues are the events so far followed by the events of the
    continuation, so what the caller has received after the upstream
    delivered [xs] is [xs], whatever follows; an empty response yields
    nothing. *)
Theorem X3_relay_is_incremental (xs ys : list string) :
  relay (xs ++ ys)%list = (relay xs ++ relay ys)%list /\
  yielded (relay (xs ++ ys)%list) = (xs ++ yielded (relay ys))%list /\
  (relay xs = [] <-> xs = []).
Proof.
  assert (Happ : relay (xs ++ ys)%list = (relay xs ++ relay ys)%list).
  { induction xs as [|x rest IH]; [reflexivity|].
    cbn [relay app]. rewrite IH. reflexivity. }
  split; [exact Happ|]. split.
  - rewrite !yielded_relay. reflexivity.
  - split; [|intros ->; reflexivity].
    destruct xs as [|x rest]; [reflexivity | discriminate].
Qed.

(** With a prompt rewrite configured, a body that gets through is a dict. *)
Lemma rewrite_ok_is_dict (c : ApiConfig) (v v' : value) :
  configured (OVERWRITE_SYSTEM_PROMPT c) || configured (APPEND_SYSTEM_PROMPT c) = true ->
  rewrite c v = Ok v' ->
  exists d, v = PyDict d.
Proof.
  intros Hconf H.
  destruct v as [| | | | | |d]; [| | | | | |eauto];
    match type of H with
    | rewrite c ?x = _ =>
        destruct (rewrite_prompts_fault_not_dict c x Hconf) as [e He];
        [discriminate | congruence]
    end.
Qed.

(** X4: with a non-empty overwrite prompt X, whatever request is forwarded
    has a messages list that starts with an object whose role is "system"
    and whose content is X.  What follows it is the inbound list without
    its first message when that message had the role "system", and the
    whole inbound list otherwise. *)
Theorem X4_system_prompt_enforced (c : ApiConfig) (server : upstream) (v : value)
    (X : string) (req : Request) :
  OVERWRITE_SYSTEM_PROMPT c = Some X -> X <> "" ->
  In req (forwarded (handle_chat_completions c server (Some v))) ->
  exists msg tail first rest,
    getitem v "messages" = Ok (PyList (PyDict msg :: tail)) /\
    getitem (json req) "messages" = Ok (PyList (PyDict first :: rest)) /\
    first !! "role" = Some (PyStr "system") /\
    first !! "content" = Some (PyStr X) /\
    (msg !! "role" = Some (PyStr "system") -> rest = tail) /\
    (msg !! "role" <> Some (PyStr "system") -> rest = PyDict msg :: tail).
Proof.
  intros Hover Hne Hreq.
  assert (Hconf : configured (OVERWRITE_SYSTEM_PROMPT c) = true)
    by (apply configured_true; eauto).
  apply forwarded_inv in Hreq. destruct Hreq as (w & w' & [= <-] & Hrw & ->).
  destruct (rewrite_ok_is_dict c v w') as [d ->];
    [rewrite Hconf; reflexivity | exact Hrw |].
  rewrite rewrite_dict in Hrw. unfold rewrite_prompts in Hrw. rewrite Hconf in Hrw.
  apply overwrite_prompt_inv in Hrw.
  destruct Hrw as (d0 & msg & tail & role & [= <-] & Hm & Hr & ->).
  rewrite model_rewritten_other in Hm by discriminate.
  cbn [outbound json getitem]. rewrite Hm, lookup_insert_eq.
  unfold overwritten, system_message. rewrite Hover. cbn [of_optional].
  destruct (eq_str role "system") eqn:Hsys.
  - apply eq_str_true in Hsys. subst role.
    exists msg, tail, (<["content" := PyStr X]> msg), tail.
    split; [reflexivity|]. split; [reflexivity|].
    split; [rewrite lookup_insert_ne by discriminate; exact Hr|].
    split; [apply lookup_insert_eq|]. split; [reflexivity | contradiction].
  - apply eq_str_false in Hsys.
    exists msg, tail, {[ "role" := PyStr "system"; "content" := PyStr X ]}, (PyDict msg :: tail).
    split; [reflexivity|]. split; [reflexivity|].
    split; [apply lookup_insert_eq|].
    split; [rewrite lookup_insert_ne by discriminate; apply lookup_singleton_eq|].
    split; [|reflexivity]. intros Hrole. rewrite Hr in Hrole. congruence.
Qed.

Lemma X4_system_prompt_enforced_witness :
  let c := Sample.config None None (Some "X") None in
  let v := PyDict (Sample.bare [Sample.message "user" "hi"]) in
  let req := outbound c (PyDict (Sample.bare [Sample.message "system" "X";
                                              Sample.message "user" "hi"])) in
  In req (forwarded (handle_chat_completions c Sample.echo (Some v))) /\
  exists first rest,
    getitem (json req) "messages" = Ok (PyList (PyDict first :: rest)) /\
    first !! "content" = Some (PyStr "X").
Proof.
  cbv zeta.
  assert (Hreq : In (outbound (Sample.config None None (Some "X") None)
                       (PyDict (Sample.bare [Sample.message "system" "X";
                                             Sample.message "user" "hi"])))
                    (forwarded (handle_chat_completions
                                  (Sample.config None None (Some "X") None) Sample.echo
                                  (Some (PyDict (Sample.bare [Sample.message "user" "hi"]))))))
    by (vm_compute; left; reflexivity).
  split; [exact Hreq|].
  destruct (X4_system_prompt_enforced (Sample.config None None (Some "X") None)
              Sample.echo (PyDict (Sample.bare [Sample.message "user" "hi"])) "X"
              (outbound (Sample.config None None (Some "X") None)
                 (PyDict (Sample.bare [Sample.message "system" "X";
                                       Sample.message "user" "hi"]))))
    as (msg & tail & first & rest & _ & Hj & _ & Hc & _).
  - reflexivity.
  - discriminate.
  - exact Hreq.
  - exists first, rest. split; [exact Hj | exact Hc].
Defined.

(** X5: with the overwrite prompt configured, the handler returns a
    response exactly when the body is a JSON object whose [messages] is a
    list that starts with an object having a [role] field; the role may be
    any value and a [content] field is not needed. *)
Theorem X5_overwrite_accepts (c : ApiConfig) (server : upstream) (v : value) :
  configured (OVERWRITE_SYSTEM_PROMPT c) = true ->
  succeeds (handle_chat_completions c server (Some v)) <->
  exists d msg rest role,
    v = PyDict d /\
    d !! "messages" = Some (PyList (PyDict msg :: rest)) /\
    msg !! "role" = Some role.
Proof.
  intros Hconf. rewrite succeeds_iff_rewrite. split.
  - intros [v' Hrw].
    destruct (rewrite_ok_is_dict c v v') as [d ->];
      [rewrite Hconf; reflexivity | exact Hrw |].
    rewrite rewrite_dict in Hrw. unfold rewrite_prompts in Hrw. rewrite Hconf in Hrw.
    apply overwrite_prompt_inv in Hrw.
    destruct Hrw as (d0 & msg & rest & role & [= <-] & Hm & Hr & _).
    rewrite model_rewritten_other in Hm by discriminate.
    exists d, msg, rest, role. auto.
  - intros (d & msg & rest & role & -> & Hm & Hr).
    rewrite rewrite_dict. unfold rewrite_prompts. rewrite Hconf.
    eexists. apply (overwrite_prompt_dict c _ msg rest role); [|exact Hr].
    rewrite model_rewritten_other by discriminate. exact Hm.
Qed.

Lemma X5_overwrite_accepts_witness :
  let c := Sample.config None None (Some "X") None in
  let first : gmap string value := {[ "role" := PyInt 7 ]} in
  configured (OVERWRITE_SYSTEM_PROMPT c) = true /\
  succeeds (handle_chat_completions c Sample.echo
              (Some (PyDict (Sample.bare [PyDict first])))).
Proof.
  cbv zeta. split; [reflexivity|].
  apply (proj2 (X5_overwrite_accepts (Sample.config None None (Some "X") None) Sample.echo
                  (PyDict (Sample.bare [PyDict {[ "role" := PyInt 7 ]}])) eq_refl)).
  exists (Sample.bare [PyDict {[ "role" := PyInt 7 ]}]), {[ "role" := PyInt 7 ]}, [], (PyInt 7).
  split; [reflexivity|]. split; vm_compute; reflexivity.
Defined.

(** X6: with the append prompt configured and the overwrite prompt not,
    the handler returns a response exactly when the body is a JSON object
    whose [messages] is a list that starts with an object having a str
    [content]; a [role] field is not needed. *)
Theorem X6_append_accepts (c : ApiConfig) (server : upstream) (v : value) :
  configured (OVERWRITE_SYSTEM_PROMPT c) = false ->
  configured (APPEND_SYSTEM_PROMPT c) = true ->
  succeeds (handle_chat_completions c server (Some v)) <->
  exists d msg rest content,
    v = PyDict d /\
    d !! "messages" = Some (PyList (PyDict msg :: rest)) /\
    msg !! "content" = Some (PyStr content).
Proof.
  intros Hover Happ. rewrite succeeds_iff_rewrite. split.
  - intros [v' Hrw].
    destruct (rewrite_ok_is_dict c v v') as [d ->];
      [rewrite Hover, Happ; reflexivity | exact Hrw |].
    rewrite rewrite_dict in Hrw. unfold rewrite_prompts in Hrw.
    rewrite Hover, Happ in Hrw. apply append_prompt_inv in Hrw.
    destruct Hrw as (d0 & msg & rest & content & prompt & [= <-] & _ & Hm & Hc & _).
    rewrite model_rewritten_other in Hm by discriminate.
    exists d, msg, rest, content. auto.
  - intros (d & msg & rest & content & -> & Hm & Hc).
    apply configured_true in Happ as Hsome. destruct Hsome as (prompt & Hprompt & _).
    rewrite rewrite_dict. unfold rewrite_prompts. rewrite Hover, Happ.
    eexists. apply (append_prompt_dict c _ msg rest content prompt Hprompt); [|exact Hc].
    rewrite model_rewritten_other by discriminate. exact Hm.
Qed.

Lemma X6_append_accepts_witness :
  let c := Sample.config None None (Some "") (Some "Y") in
  let first : gmap string value := {[ "content" := PyStr "hi" ]} in
  configured (OVERWRITE_SYSTEM_PROMPT c) = false /\
  configured (APPEND_SYSTEM_PROMPT c) = true /\
  succeeds (handle_chat_completions c Sample.echo
              (Some (PyDict (Sample.bare [PyDict first])))).
Proof.
  cbv zeta. split; [reflexivity|]. split; [reflexivity|].
  apply (proj2 (X6_append_accepts (Sample.config None None (Some "") (Some "Y")) Sample.echo
                  (PyDict (Sample.bare [PyDict {[ "content" := PyStr "hi" ]}]))
                  eq_refl eq_refl)).
  exists (Sample.bare [PyDict {[ "content" := PyStr "hi" ]}]),
         {[ "content" := PyStr "hi" ]}, [], "hi".
  split; [reflexivity|]. split; vm_compute; reflexivity.
Defined.

Lemma model_rewritten_fixed (c : ApiConfig) (d : gmap string value) :
  (forall x, d !! "model" = Some x -> x = of_optional (MODEL c)) ->
  model_rewritten c d = d.
Proof.
  intros H. unfold model_rewritten.
  destruct (bool_decide_reflect (is_Some (d !! "model"))) as [[x Hx]|_]; [|reflexivity].
  apply insert_id. rewrite Hx, (H x Hx). reflexivity.
Qed.

Lemma model_rewritten_settled (c : ApiConfig) (d : gmap string value) (x : value) :
  model_rewritten c d !! "model" = Some x -> x = of_optional (MODEL c).
Proof.
  unfold model_rewritten.
  destruct (bool_decide_reflect (is_Some (d !! "model"))) as [Hin|Hout].
  - rewrite lookup_insert_eq. congruence.
  - intros Hx. exfalso. apply Hout. eauto.
Qed.

(** X7: unless the append rewrite is the one that applies, rewriting is
    idempotent: a body the rewrite has produced is left as it is by a
    second pass with the same configuration (for instance through a second
    proxy of the same kind). *)
Theorem X7_rewrite_idempotent (c : ApiConfig) (v v' : value) :
  configured (OVERWRITE_SYSTEM_PROMPT c) = true \/
  configured (APPEND_SYSTEM_PROMPT c) = false ->
  rewrite c v = Ok v' ->
  rewrite c v' = Ok v'.
Proof.
  intros Hconf Hrw.
  destruct (configured (OVERWRITE_SYSTEM_PROMPT c)) eqn:Hover.
  - destruct (rewrite_ok_is_dict c v v') as [d ->];
      [rewrite Hover; reflexivity | exact Hrw |].
    rewrite rewrite_dict in Hrw. unfold rewrite_prompts in Hrw. rewrite Hover in Hrw.
    apply overwrite_prompt_inv in Hrw.
    destruct Hrw as (d0 & msg & rest & role & [= <-] & Hm & Hr & ->).
    assert (Hfix : forall l, model_rewritten c (<["messages" := l]> (model_rewritten c d))
                             = <["messages" := l]> (model_rewritten c d)).
    { intros l. apply model_rewritten_fixed. intros x.
      rewrite lookup_insert_ne by discriminate. apply model_rewritten_settled. }
    rewrite rewrite_dict, Hfix. unfold rewrite_prompts. rewrite Hover.
    unfold overwritten. destruct (eq_str role "system") eqn:Hsys.
    + rewrite (overwrite_prompt_dict c _
                 (<["content" := of_optional (OVERWRITE_SYSTEM_PROMPT c)]> msg) rest role).
      * unfold overwritten. rewrite Hsys, !insert_insert_eq. reflexivity.
      * apply lookup_insert_eq.
      * rewrite lookup_insert_ne by discriminate. exact Hr.
    + rewrite (overwrite_prompt_dict c _
                 {[ "role" := PyStr "system";
                    "content" := of_optional (OVERWRITE_SYSTEM_PROMPT c) ]}
                 (PyDict msg :: rest) (PyStr "system")).
      * unfold overwritten, system_message. cbn [eq_str].
        rewrite bool_decide_eq_true_2 by reflexivity.
        rewrite insert_insert_eq.
        rewrite (insert_id {[ "role" := PyStr "system";
                              "content" := of_optional (OVERWRITE_SYSTEM_PROMPT c) ]}
                   "content" (of_optional (OVERWRITE_SYSTEM_PROMPT c))); [reflexivity|].
        rewrite lookup_insert_ne by discriminate. apply lookup_singleton_eq.
      * apply lookup_insert_eq.
      * apply lookup_insert_eq.
  - destruct Hconf as [Hconf|Happ]; [discriminate Hconf|].
    assert (Hsame : forall x, rewrite c x = rewrite_model c x).
    { intros x. unfold rewrite, rewrite_prompts. rewrite Hover, Happ.
      destruct (rewrite_model c x); reflexivity. }
    rewrite Hsame in Hrw |- *.
    destruct v as [| | | | | |d];
      try (match type of Hrw with
           | rewrite_model c ?x = Ok _ =>
               assert (E : v' = x)
                 by (apply (rewrite_model_not_dict c x v'); [discriminate | exact Hrw]);
               subst v'; exact Hrw
           end).
    rewrite rewrite_model_dict in Hrw. injection Hrw as <-.
    rewrite rewrite_model_dict. do 2 f_equal.
    apply model_rewritten_fixed. apply model_rewritten_settled.
Qed.

Lemma X7_rewrite_idempotent_witness :
  let c := Sample.config (Some "llama3") None (Some "X") (Some "Y") in
  let once := PyDict (<["messages" := PyList [Sample.message "system" "X";
                                              Sample.message "user" "hi"]]>
                        (<["model" := PyStr "llama3"]>
                           (Sample.chat [Sample.message "user" "hi"]))) in
  rewrite c (PyDict (Sample.chat [Sample.message "user" "hi"])) = Ok once /\
  rewrite c once = Ok once.
Proof.
  cbv zeta.
  assert (H : rewrite (Sample.config (Some "llama3") None (Some "X") (Some "Y"))
                (PyDict (Sample.chat [Sample.message "user" "hi"]))
              = Ok (PyDict (<["messages" := PyList [Sample.message "system" "X";
                                                    Sample.message "user" "hi"]]>
                              (<["model" := PyStr "llama3"]>
                                 (Sample.chat [Sample.message "user" "hi"])))))
    by (vm_compute; reflexivity).
  split; [exact H|].
  apply (X7_rewrite_idempotent (Sample.config (Some "llama3") None (Some "X") (Some "Y"))
           (PyDict (Sample.chat [Sample.message "user" "hi"]))).
  - left. reflexivity.
  - exact H.
Defined.

Lemma string_length_app (s t : string) :
  String.length (s ++ t) = String.length s + String.length t.
Proof. induction s as [|a s IH]; [reflexivity|]. simpl. rewrite IH. reflexivity. Qed.

Lemma first_content_dict (d msg : gmap string value) (rest : list value) :
  d !! "messages" = Some (PyList (PyDict msg :: rest)) ->
  first_content (PyDict d)
  = match msg !! "content" with Some x => Ok x | None => Raise KeyError end.
Proof. intros Hm. unfold first_content. py_run. reflexivity. Qed.

(** X8: when the append rewrite applies, with prompt Y, every pass adds
    the joiner and Y to the first content, so the content grows by the
    length of Y plus two, the body is never forwarded as it came, and a
    second pass appends a second time. *)
Theorem X8_append_accumulates (c : ApiConfig) (v v' : value) (Y : string) :
  configured (OVERWRITE_SYSTEM_PROMPT c) = false ->
  APPEND_SYSTEM_PROMPT c = Some Y -> Y <> "" ->
  rewrite c v = Ok v' ->
  exists content,
    first_content v = Ok (PyStr content) /\
    first_content v' = Ok (PyStr ((content ++ joiner) ++ Y)) /\
    String.length ((content ++ joiner) ++ Y) = String.length content + 2 + String.length Y /\
    v' <> v /\
    exists v'',
      rewrite c v' = Ok v'' /\
      first_content v'' = Ok (PyStr ((((content ++ joiner) ++ Y) ++ joiner) ++ Y)).
Proof.
  intros Hover HY Hne Hrw.
  assert (Happ : configured (APPEND_SYSTEM_PROMPT c) = true)
    by (apply configured_true; eauto).
  destruct (rewrite_ok_is_dict c v v') as [d ->];
    [rewrite Hover, Happ; reflexivity | exact Hrw |].
  rewrite rewrite_dict in Hrw. unfold rewrite_prompts in Hrw. rewrite Hover, Happ in Hrw.
  apply append_prompt_inv in Hrw.
  destruct Hrw as (d0 & msg & rest & content & prompt & [= <-] & HY' & Hm & Hc & ->).
  rewrite HY in HY'. injection HY' as <-.
  assert (Hmd : d !! "messages" = Some (PyList (PyDict msg :: rest)))
    by (rewrite model_rewritten_other in Hm by discriminate; exact Hm).
  set (grown := (content ++ joiner) ++ Y).
  set (d2 := <["messages" := PyList (appended msg content Y :: rest)]> (model_rewritten c d)).
  assert (Hm2 : d2 !! "messages"
                = Some (PyList (PyDict (<["content" := PyStr grown]> msg) :: rest)))
    by apply lookup_insert_eq.
  assert (Hv : first_content (PyDict d) = Ok (PyStr content))
    by (rewrite (first_content_dict d msg rest Hmd), Hc; reflexivity).
  assert (Hv' : first_content (PyDict d2) = Ok (PyStr grown))
    by (rewrite (first_content_dict d2 _ rest Hm2), lookup_insert_eq; reflexivity).
  assert (Hlen : String.length grown = String.length content + 2 + String.length Y).
  { unfold grown. rewrite !string_length_app. reflexivity. }
  exists content. split; [exact Hv|]. split; [exact Hv'|]. split; [exact Hlen|]. split.
  - intros E. rewrite E, Hv in Hv'. injection Hv' as E'. rewrite <- E' in Hlen. lia.
  - assert (Hfix : model_rewritten c d2 = d2).
    { apply model_rewritten_fixed. intros x. unfold d2.
      rewrite lookup_insert_ne by discriminate. apply model_rewritten_settled. }
    eexists. split.
    + rewrite rewrite_dict, Hfix. unfold rewrite_prompts. rewrite Hover, Happ.
      apply (append_prompt_dict c d2 _ rest grown Y HY Hm2). apply lookup_insert_eq.
    + rewrite (first_content_dict _ (<["content" := PyStr ((grown ++ joiner) ++ Y)]>
                                       (<["content" := PyStr grown]> msg)) rest).
      * rewrite lookup_insert_eq. reflexivity.
      * apply lookup_insert_eq.
Qed.

Lemma X8_append_accumulates_witness :
  let c := Sample.config None None None (Some "Y") in
  let v := PyDict (Sample.bare [Sample.message "user" "hi"]) in
  let v' := PyDict (Sample.bare [Sample.message "user" (("hi" ++ joiner) ++ "Y")]) in
  rewrite c v = Ok v' /\ v' <> v.
Proof.
  cbv zeta.
  assert (H : rewrite (Sample.config None None None (Some "Y"))
                (PyDict (Sample.bare [Sample.message "user" "hi"]))
              = Ok (PyDict (Sample.bare [Sample.message "user" (("hi" ++ joiner) ++ "Y")])))
    by (vm_compute; reflexivity).
  split; [exact H|].
  destruct (X8_append_accumulates (Sample.config None None None (Some "Y"))
              (PyDict (Sample.bare [Sample.message "user" "hi"]))
              (PyDict (Sample.bare [Sample.message "user" (("hi" ++ joiner) ++ "Y")])) "Y")
    as (content & _ & _ & _ & Hdiff & _).
  - reflexivity.
  - reflexivity.
  - discriminate.
  - exact H.
  - exact Hdiff.
Defined.

Lemma same_setting_configured (o1 o2 : option string) :
  same_setting o1 o2 ->
  configured o1 = configured o2 /\ (configured o1 = true -> o1 = o2).
Proof.
  intros [->|[H1 H2]]; [split; reflexivity|].
  apply configured_false in H1, H2. rewrite H1, H2. split; [reflexivity | discriminate].
Qed.

(** X9: for the API key and the two prompts, the empty string counts as
    unset: two configurations with the same endpoint and default model,
    whose key and prompts are equal or both unset-or-empty, make the
    handler behave the same on every body and every upstream. *)
Theorem X9_empty_setting_is_unset (c1 c2 : ApiConfig) (server : upstream)
    (body : option value) :
  API_ENDPOINT c1 = API_ENDPOINT c2 ->
  MODEL c1 = MODEL c2 ->
  same_setting (API_KEY c1) (API_KEY c2) ->
  same_setting (OVERWRITE_SYSTEM_PROMPT c1) (OVERWRITE_SYSTEM_PROMPT c2) ->
  same_setting (APPEND_SYSTEM_PROMPT c1) (APPEND_SYSTEM_PROMPT c2) ->
  handle_chat_completions c1 server body = handle_chat_completions c2 server body.
Proof.
  intros Hurl Hmodel Hkey Hover Happ.
  apply same_setting_configured in Hkey, Hover, Happ.
  destruct Hkey as [Hkey Hkey'], Hover as [Hover Hover'], Happ as [Happ Happ'].
  assert (Hheaders : build_headers c1 = build_headers c2).
  { unfold build_headers. rewrite <- Hkey.
    destruct (configured (API_KEY c1)) eqn:E; [|reflexivity].
    unfold API_KEY in Hkey'. rewrite (Hkey' eq_refl). reflexivity. }
  assert (Hout : forall v, outbound c1 v = outbound c2 v).
  { intros v. unfold outbound. rewrite Hurl, Hheaders. reflexivity. }
  assert (Hrw : forall v, rewrite c1 v = rewrite c2 v).
  { intros v. unfold rewrite, rewrite_model. rewrite Hmodel.
    destruct (let* present := contains "model" v in
              if present then setitem v "model" (of_optional (MODEL c2)) else Ok v)
      as [w|e]; [|reflexivity].
    cbn [bind]. unfold rewrite_prompts. rewrite <- Hover, <- Happ.
    destruct (configured (OVERWRITE_SYSTEM_PROMPT c1)) eqn:E1.
    - unfold overwrite_prompt. rewrite (Hover' eq_refl). reflexivity.
    - destruct (configured (APPEND_SYSTEM_PROMPT c1)) eqn:E2; [|reflexivity].
      unfold append_prompt. rewrite (Happ' eq_refl). reflexivity. }
  unfold handle_chat_completions. destruct (request_json body) as [v|e]; [|reflexivity].
  cbn [bind]. rewrite Hrw. destruct (rewrite c2 v) as [w|e]; [|reflexivity].
  cbn [bind]. unfold proxy_stream. rewrite Hout. reflexivity.
Qed.

Lemma X9_empty_setting_is_unset_witness :
  let c1 := Sample.config (Some "llama3") (Some "") (Some "") None in
  let c2 := Sample.config (Some "llama3") None None (Some "") in
  let body := Some (PyDict (Sample.chat [])) in
  handle_chat_completions c1 Sample.echo body = handle_chat_completions c2 Sample.echo body.
Proof.
  cbv zeta.
  apply (X9_empty_setting_is_unset
           (Sample.config (Some "llama3") (Some "") (Some "") None)
           (Sample.config (Some "llama3") None None (Some ""))).
  - reflexivity.
  - reflexivity.
  - right. split; [right | left]; reflexivity.
  - right. split; [right | left]; reflexivity.
  - right. split; [left | right]; reflexivity.
Defined.

(** X10: a body that is not a JSON object gets a response exactly when no
    prompt rewrite is configured and the membership test of line 77 is
    false: a list with no element equal to "model", or a str that does not
    contain "model".  It is then forwarded as it came.  In every other
    case the handler raises a TypeError. *)
Theorem X10_non_object_body (c : ApiConfig) (server : upstream) (v : value) :
  (forall d, v <> PyDict d) ->
  (succeeds (handle_chat_completions c server (Some v)) <->
   configured (OVERWRITE_SYSTEM_PROMPT c) = false /\
   configured (APPEND_SYSTEM_PROMPT c) = false /\
   contains "model" v = Ok false) /\
  (succeeds (handle_chat_completions c server (Some v)) ->
   forwarded (handle_chat_completions c server (Some v)) = [outbound c v]) /\
  (forall e, handle_chat_completions c server (Some v) = Raise e -> e = TypeError).
Proof.
  intros Hv.
  assert (Hmodel : rewrite_model c v
                   = match contains "model" v with
                     | Ok false => Ok v
                     | _ => Raise TypeError
                     end).
  { unfold rewrite_model.
    destruct v as [| | | |s|l|d]; try reflexivity.
    exfalso. apply (Hv d). reflexivity. }
  split; [|split].
  - rewrite succeeds_iff_rewrite. split.
    + intros [v' Hrw].
      destruct (configured (OVERWRITE_SYSTEM_PROMPT c) || configured (APPEND_SYSTEM_PROMPT c))
        eqn:Hconf.
      * destruct (rewrite_ok_is_dict c v v' Hconf Hrw) as [d E]. exfalso. apply (Hv d E).
      * apply orb_false_elim in Hconf. destruct Hconf as [Hover Happ].
        split; [exact Hover|]. split; [exact Happ|].
        unfold rewrite in Hrw. rewrite Hmodel in Hrw.
        destruct (contains "model" v) as [[|]|e]; [discriminate Hrw | reflexivity | discriminate Hrw].
    + intros (Hover & Happ & Hin). exists v.
      unfold rewrite. rewrite Hmodel, Hin. cbn [bind].
      unfold rewrite_prompts. rewrite Hover, Happ. reflexivity.
  - intros Hs. apply succeeds_iff_rewrite in Hs. destruct Hs as [v' Hrw].
    rewrite (forwarded_ok c server v v' Hrw).
    rewrite (rewrite_not_dict c v v' Hv Hrw). reflexivity.
  - intros e H. destruct (rewrite c v) as [v'|e'] eqn:Hrw;
      [rewrite (handle_ok c server v v' Hrw) in H; discriminate H|].
    rewrite (handle_raise c server v e' Hrw) in H. injection H as <-.
    unfold rewrite in Hrw. rewrite Hmodel in Hrw.
    destruct (contains "model" v) as [[|]|e0]; cbn [bind] in Hrw;
      [congruence | | congruence].
    unfold rewrite_prompts, overwrite_prompt, append_prompt in Hrw.
    assert (Hget : getitem v "messages" = Raise TypeError).
    { destruct v as [| | | | | |d]; try reflexivity. exfalso. apply (Hv d). reflexivity. }
    rewrite Hget in Hrw. cbn [bind] in Hrw.
    destruct (configured (OVERWRITE_SYSTEM_PROMPT c)); [congruence|].
    destruct (configured (APPEND_SYSTEM_PROMPT c)); congruence.
Qed.

Lemma X10_non_object_body_witness :
  let c := Sample.config (Some "llama3") None None None in
  forwarded (handle_chat_completions c Sample.echo (Some (PyList [PyInt 1; PyStr "models"])))
  = [outbound c (PyList [PyInt 1; PyStr "models"])] /\
  handle_chat_completions c Sample.echo (Some (PyList [PyInt 1; PyStr "model"]))
  = Raise TypeError /\
  handle_chat_completions c Sample.echo (Some (PyStr "remodelled")) = Raise TypeError.
Proof.
  cbv zeta. split; [|split].
  - apply (proj1 (proj2 (X10_non_object_body (Sample.config (Some "llama3") None None None)
                           Sample.echo (PyList [PyInt 1; PyStr "models"])
                           ltac:(discriminate)))).
    apply (proj1 (X10_non_object_body (Sample.config (Some "llama3") None None None)
                    Sample.echo (PyList [PyInt 1; PyStr "models"]) ltac:(discriminate))).
    split; [reflexivity|]. split; [reflexivity | vm_compute; reflexivity].
  - vm_compute. reflexivity.
  - vm_compute. reflexivity.
Defined.

(** With a prompt rewrite configured, the handler on a dict is the prompt
    rewrite that applies, run on the dict lines 77-78 leave behind. *)
Lemma handle_dict_prompt (c : ApiConfig) (server : upstream) (d : gmap string value)
    (e : exn) :
  (if configured (OVERWRITE_SYSTEM_PROMPT c)
   then overwrite_prompt c (PyDict (model_rewritten c d))
   else append_prompt c (PyDict (model_rewritten c d))) = Raise e ->
  configured (OVERWRITE_SYSTEM_PROMPT c) || configured (APPEND_SYSTEM_PROMPT c) = true ->
  handle_chat_completions c server (Some (PyDict d)) = Raise e.
Proof.
  intros H Hconf. apply handle_raise. rewrite rewrite_dict. unfold rewrite_prompts.
  destruct (configured (OVERWRITE_SYSTEM_PROMPT c)); [exact H|].
  destruct (configured (APPEND_SYSTEM_PROMPT c)); [exact H | discriminate Hconf].
Qed.

(** X11: with a prompt rewrite configured, a JSON object whose [messages]
    is not a list makes the handler raise: a KeyError when it is an object
    (subscript 0 on a dict), an IndexError when it is the empty str, and a
    TypeError when it is a non-empty str, a number, a boolean or null. *)
Theorem X11_messages_not_a_list (c : ApiConfig) (server : upstream)
    (d : gmap string value) (messages : value) :
  configured (OVERWRITE_SYSTEM_PROMPT c) || configured (APPEND_SYSTEM_PROMPT c) = true ->
  d !! "messages" = Some messages ->
  (forall l, messages <> PyList l) ->
  handle_chat_completions c server (Some (PyDict d))
  = Raise match messages with
          | PyDict _ => KeyError
          | PyStr EmptyString => IndexError
          | _ => TypeError
          end.
Proof.
  intros Hconf Hm Hshape. apply handle_dict_prompt; [|exact Hconf].
  assert (Hm' : model_rewritten c d !! "messages" = Some messages)
    by (rewrite model_rewritten_other by discriminate; exact Hm).
  unfold overwrite_prompt, append_prompt.
  destruct messages as [| | | |s|l|dm]; py_run;
    try (destruct (configured (OVERWRITE_SYSTEM_PROMPT c)); reflexivity).
  - destruct s as [|a s]; cbn [String.get]; py_run;
      destruct (configured (OVERWRITE_SYSTEM_PROMPT c)); reflexivity.
  - exfalso. apply (Hshape l). reflexivity.
Qed.

Lemma X11_messages_not_a_list_witness :
  let c := Sample.config None None (Some "X") None in
  handle_chat_completions c Sample.echo (Some (PyDict {[ "messages" := PyStr "hi" ]}))
  = Raise TypeError /\
  handle_chat_completions c Sample.echo
    (Some (PyDict {[ "messages" := PyDict {[ "0" := Sample.message "user" "hi" ]} ]}))
  = Raise KeyError.
Proof.
  cbv zeta. split.
  - apply (X11_messages_not_a_list (Sample.config None None (Some "X") None) Sample.echo
             {[ "messages" := PyStr "hi" ]} (PyStr "hi")).
    + reflexivity.
    + vm_compute. reflexivity.
    + discriminate.
  - apply (X11_messages_not_a_list (Sample.config None None (Some "X") None) Sample.echo
             {[ "messages" := PyDict {[ "0" := Sample.message "user" "hi" ]} ]}
             (PyDict {[ "0" := Sample.message "user" "hi" ]})).
    + reflexivity.
    + vm_compute. reflexivity.
    + discriminate.
Defined.

(** X12: with a prompt rewrite configured and a non-empty [messages] list,
    the handler raises a TypeError when the first element is not an object;
    a KeyError when the overwrite rewrite applies and the first message has
    no [role], or the append rewrite applies and it has no [content]; and a
    TypeError when the append rewrite applies and the content is not a
    str. *)
Theorem X12_first_message_of_wrong_shape (c : ApiConfig) (server : upstream)
    (d : gmap string value) (first : value) (rest : list value) :
  configured (OVERWRITE_SYSTEM_PROMPT c) || configured (APPEND_SYSTEM_PROMPT c) = true ->
  d !! "messages" = Some (PyList (first :: rest)) ->
  ((forall msg, first <> PyDict msg) ->
   handle_chat_completions c server (Some (PyDict d)) = Raise TypeError) /\
  (forall msg, first = PyDict msg ->
     configured (OVERWRITE_SYSTEM_PROMPT c) = true -> msg !! "role" = None ->
     handle_chat_completions c server (Some (PyDict d)) = Raise KeyError) /\
  (forall msg, first = PyDict msg ->
     configured (OVERWRITE_SYSTEM_PROMPT c) = false -> msg !! "content" = None ->
     handle_chat_completions c server (Some (PyDict d)) = Raise KeyError) /\
  (forall msg content, first = PyDict msg ->
     configured (OVERWRITE_SYSTEM_PROMPT c) = false ->
     msg !! "content" = Some content -> (forall s, content <> PyStr s) ->
     handle_chat_completions c server (Some (PyDict d)) = Raise TypeError).
Proof.
  intros Hconf Hm.
  assert (Hm' : model_rewritten c d !! "messages" = Some (PyList (first :: rest)))
    by (rewrite model_rewritten_other by discriminate; exact Hm).
  split; [|split; [|split]].
  - intros Hshape. apply handle_dict_prompt; [|exact Hconf].
    unfold overwrite_prompt, append_prompt.
    destruct first as [| | | |s|l|msg]; py_run;
      try (destruct (configured (OVERWRITE_SYSTEM_PROMPT c)); reflexivity).
    exfalso. apply (Hshape msg). reflexivity.
  - intros msg -> Hover Hr. apply handle_dict_prompt; [|exact Hconf].
    rewrite Hover. unfold overwrite_prompt. py_run. reflexivity.
  - intros msg -> Hover Hc. apply handle_dict_prompt; [|exact Hconf].
    rewrite Hover. unfold append_prompt. py_run. reflexivity.
  - intros msg content -> Hover Hc Hshape. apply handle_dict_prompt; [|exact Hconf].
    rewrite Hover. unfold append_prompt. py_run.
    destruct content as [| | | |s| |]; try reflexivity.
    exfalso. apply (Hshape s). reflexivity.
Qed.

Lemma X12_first_message_of_wrong_shape_witness :
  let c := Sample.config None None None (Some "Y") in
  let parts := PyList [PyDict {[ "type" := PyStr "text"; "text" := PyStr "hi" ]}] in
  let first : gmap string value := {[ "role" := PyStr "user"; "content" := parts ]} in
  handle_chat_completions c Sample.echo (Some (PyDict (Sample.bare [PyDict first])))
  = Raise TypeError.
Proof.
  cbv zeta.
  destruct (X12_first_message_of_wrong_shape (Sample.config None None None (Some "Y"))
              Sample.echo
              (Sample.bare [PyDict {[ "role" := PyStr "user";
                                      "content" := PyList [PyDict {[ "type" := PyStr "text";
                                                                     "text" := PyStr "hi" ]}] ]}])
              (PyDict {[ "role" := PyStr "user";
                         "content" := PyList [PyDict {[ "type" := PyStr "text";
                                                        "text" := PyStr "hi" ]}] ]})
              [])
    as (_ & _ & _ & H).
  - reflexivity.
  - vm_compute. reflexivity.
  - apply (H _ (PyList [PyDict {[ "type" := PyStr "text"; "text" := PyStr "hi" ]}])
             eq_refl eq_refl).
    + vm_compute. reflexivity.
    + discriminate.
Defined.

(** X13: when no message is put in front (the overwrite rewrite does not
    apply, or the first message already has the role "system"), the first
    forwarded message is the first inbound one with at most its [content]
    changed: its role and every other field are kept, and so are the
    messages after it. *)
Theorem X13_first_message_fields_kept (c : ApiConfig) (server : upstream)
    (d msg : gmap string value) (rest : list value) (req : Request) :
  d !! "messages" = Some (PyList (PyDict msg :: rest)) ->
  configured (OVERWRITE_SYSTEM_PROMPT c) = false \/ msg !! "role" = Some (PyStr "system") ->
  In req (forwarded (handle_chat_completions c server (Some (PyDict d)))) ->
  exists first,
    getitem (json req) "messages" = Ok (PyList (PyDict first :: rest)) /\
    (forall k, k <> "content" -> first !! k = msg !! k).
Proof.
  intros Hm Hcase Hreq.
  apply forwarded_inv in Hreq. destruct Hreq as (v & v' & [= <-] & Hrw & ->).
  assert (Hm' : model_rewritten c d !! "messages" = Some (PyList (PyDict msg :: rest)))
    by (rewrite model_rewritten_other by discriminate; exact Hm).
  rewrite rewrite_dict in Hrw. unfold rewrite_prompts in Hrw.
  cbn [outbound json].
  destruct (configured (OVERWRITE_SYSTEM_PROMPT c)) eqn:Hover.
  - destruct Hcase as [Hcase|Hrole]; [discriminate Hcase|].
    rewrite (overwrite_prompt_dict c _ msg rest _ Hm' Hrole) in Hrw. injection Hrw as <-.
    cbn [getitem]. rewrite lookup_insert_eq. unfold overwritten. cbn [eq_str].
    rewrite bool_decide_eq_true_2 by reflexivity.
    eexists. split; [reflexivity|]. intros k Hk. apply lookup_insert_ne. congruence.
  - destruct (configured (APPEND_SYSTEM_PROMPT c)).
    + apply append_prompt_inv in Hrw.
      destruct Hrw as (d0 & msg0 & rest0 & content & prompt & [= <-] & _ & Hm0 & _ & ->).
      rewrite Hm' in Hm0. injection Hm0 as <- <-.
      cbn [getitem]. rewrite lookup_insert_eq. unfold appended.
      eexists. split; [reflexivity|]. intros k Hk. apply lookup_insert_ne. congruence.
    + injection Hrw as <-. cbn [getitem]. rewrite Hm'.
      exists msg. split; reflexivity.
Qed.

Lemma X13_first_message_fields_kept_witness :
  let c := Sample.config None None (Some "X") None in
  let msg : gmap string value :=
    {[ "role" := PyStr "system"; "name" := PyStr "ops"; "content" := PyStr "old" ]} in
  let d := Sample.bare [PyDict msg; Sample.message "user" "hi"] in
  let req := outbound c (PyDict (Sample.bare [PyDict (<["content" := PyStr "X"]> msg);
                                              Sample.message "user" "hi"])) in
  In req (forwarded (handle_chat_completions c Sample.echo (Some (PyDict d)))) /\
  exists first,
    getitem (json req) "messages" = Ok (PyList [PyDict first; Sample.message "user" "hi"]) /\
    first !! "name" = Some (PyStr "ops").
Proof.
  cbv zeta.
  assert (Hreq :
    In (outbound (Sample.config None None (Some "X") None)
          (PyDict (Sample.bare
             [PyDict (<["content" := PyStr "X"]>
                        {[ "role" := PyStr "system"; "name" := PyStr "ops";
                           "content" := PyStr "old" ]});
              Sample.message "user" "hi"])))
       (forwarded (handle_chat_completions (Sample.config None None (Some "X") None)
          Sample.echo
          (Some (PyDict (Sample.bare
             [PyDict {[ "role" := PyStr "system"; "name" := PyStr "ops";
                        "content" := PyStr "old" ]};
              Sample.message "user" "hi"]))))))
    by (vm_compute; left; reflexivity).
  split; [exact Hreq|].
  assert (Hm : Sample.bare [PyDict {[ "role" := PyStr "system"; "name" := PyStr "ops";
                                      "content" := PyStr "old" ]};
                            Sample.message "user" "hi"] !! "messages"
               = Some (PyList (PyDict {[ "role" := PyStr "system"; "name" := PyStr "ops";
                                         "content" := PyStr "old" ]}
                               :: [Sample.message "user" "hi"])))
    by (vm_compute; reflexivity).
  assert (Hcase : configured (OVERWRITE_SYSTEM_PROMPT
                                (Sample.config None None (Some "X") None)) = false \/
                  ({[ "role" := PyStr "system"; "name" := PyStr "ops";
                      "content" := PyStr "old" ]} : gmap string value) !! "role"
                  = Some (PyStr "system"))
    by (right; vm_compute; reflexivity).
  destruct (X13_first_message_fields_kept _ Sample.echo _ _ _ _ Hm Hcase Hreq)
    as (first & Hj & Hkeep).
  exists first. split; [exact Hj|]. rewrite Hkeep by discriminate. vm_compute. reflexivity.
Defined.
